(** * Rockchip RK30xx watchdog driver (rk30xx_wdog.c)

    A shallow embedding of the driver: the interval table, the event
    handler [rk30_wd_watchdog_fn], the attach routine and the reset
    primitive, over an explicit driver state that records every call
    the driver makes into the kernel (mutex operations, bus writes,
    console messages) in program order. *)

From Stdlib Require Import ZArith List Bool Lia String Ascii.
Import ListNotations.
Local Open Scope Z_scope.

(** ** Machine integers *)

(** [u_int] and the 4-byte bus word. *)
Definition u32 (z : Z) : Z := z mod 2 ^ 32.

(** [uint64_t]. *)
Definition u64 (z : Z) : Z := z mod 2 ^ 64.

(** ** Register map and control bits *)

Definition WDOG_CTRL : Z := 0x00.
Definition WDOG_CTRL_EN : Z := Z.shiftl 1 0.
Definition WDOG_CTRL_RSP_MODE : Z := Z.shiftl 1 1.
Definition WDOG_CTRL_RST_PULSE : Z := Z.shiftl 4 2.
Definition WDOG_TORR : Z := 0x04.
Definition WDOG_TORR_INTVL_SHIFT : Z := 0.
Definition WDOG_CCVR : Z := 0x08.
Definition WDOG_CRR : Z := 0x0c.
Definition WDOG_STAT : Z := 0x10.
Definition WDOG_EOI : Z := 0x14.

(** ** The interval table *)

Record rk30_wd_interval : Type := {
  milliseconds : Z;   (* uint64_t *)
  value : Z           (* unsigned int *)
}.

Definition wd_intervals : list rk30_wd_interval :=
  [ {| milliseconds :=     2730; value :=  0 |};
    {| milliseconds :=     5460; value :=  1 |};
    {| milliseconds :=    10920; value :=  2 |};
    {| milliseconds :=    21840; value :=  3 |};
    {| milliseconds :=    43680; value :=  4 |};
    {| milliseconds :=    87360; value :=  5 |};
    {| milliseconds :=   174720; value :=  6 |};
    {| milliseconds :=   349440; value :=  7 |};
    {| milliseconds :=   698880; value :=  8 |};
    {| milliseconds :=  1397760; value :=  9 |};
    {| milliseconds :=  2795520; value := 10 |};
    {| milliseconds :=  5591040; value := 11 |};
    {| milliseconds := 11182080; value := 12 |};
    {| milliseconds := 22364160; value := 13 |};
    {| milliseconds := 44728320; value := 14 |};
    {| milliseconds := 89456640; value := 15 |};
    {| milliseconds :=        0; value :=  0 |} (* sentinel *) ].

(** ** The scan

    [while (tbl[i].milliseconds && ms > tbl[i].milliseconds) i++;]

    One unit of [fuel] per evaluation of the loop condition.  The result
    is the index at which the condition became false; [None] when the
    fuel runs out or the condition reads past the end of the array. *)
Fixpoint wd_scan (tbl : list rk30_wd_interval) (fuel : nat) (ms : Z) (i : nat)
  : option nat :=
  match fuel with
  | O => None
  | S fuel' =>
      match nth_error tbl i with
      | None => None
      | Some e =>
          if negb (milliseconds e =? 0) && (ms >? milliseconds e)
          then wd_scan tbl fuel' ms (S i)
          else Some i
      end
  end.

(** Outcome of the scan followed by the test [if (tbl[i].milliseconds)]:
    either a real bucket, or the sentinel. *)
Inductive wd_lookup : Type :=
| Found (i : nat) (e : rk30_wd_interval)
| Sentinel (i : nat).

(** The scan from index 0 with one unit of fuel per array element, then
    the test on the entry it stopped at.  [None] only when the scan left
    the array. *)
Definition wd_resolve (ms : Z) : option wd_lookup :=
  match wd_scan wd_intervals (List.length wd_intervals) ms 0 with
  | None => None
  | Some i =>
      match nth_error wd_intervals i with
      | None => None
      | Some e =>
          if negb (milliseconds e =? 0) then Some (Found i e)
          else Some (Sentinel i)
      end
  end.

(** Number of table entries the scan read before it stopped. *)
Definition wd_examined (ms : Z) : option nat :=
  option_map S (wd_scan wd_intervals (List.length wd_intervals) ms 0).

(** Largest threshold of the table. *)
Definition wd_max_ms : Z := 89456640.

(** ** Driver state and kernel events *)

Definition device_t : Type := nat.

(** [struct resource *]: a handle on the mapped register window. *)
Definition resource : Type := nat.

(** [struct rk30_wd_softc].  The [mtx] field has no content of its own
    here: a mutex is named by the softc that embeds it. *)
Record rk30_wd_softc : Type := {
  dev : device_t;
  res : resource
}.

(** What the driver asks of the kernel, in program order. *)
Inductive event : Type :=
| MtxInit (sc : rk30_wd_softc)
| MtxLock (sc : rk30_wd_softc)
| MtxUnlock (sc : rk30_wd_softc)
| BusWrite4 (r : resource) (off v : Z)
| DevicePrintf (d : device_t) (msg : string)
| Printf (msg : string)
| EventhandlerRegister (sc : rk30_wd_softc).

(** [rk30_wd_sc] is the driver's only global; [wd_trace] lists the
    events so far, oldest first. *)
Record wd_state : Type := {
  rk30_wd_sc : option rk30_wd_softc;
  wd_trace : list event
}.

(** [static struct rk30_wd_softc *rk30_wd_sc = NULL;] *)
Definition wd_boot : wd_state := {| rk30_wd_sc := None; wd_trace := [] |}.

(** State-passing computations; [None] is a fault of the model (an
    array read out of bounds). *)
Definition M (A : Type) : Type := wd_state -> option (A * wd_state).

Definition ret {A : Type} (a : A) : M A := fun st => Some (a, st).

Definition bind {A B : Type} (c : M A) (k : A -> M B) : M B :=
  fun st => match c st with
            | None => None
            | Some (a, st') => k a st'
            end.

Definition lift {A : Type} (o : option A) : M A :=
  fun st => match o with
            | None => None
            | Some a => Some (a, st)
            end.

Definition emit (e : event) : M unit :=
  fun st => Some (tt, {| rk30_wd_sc := rk30_wd_sc st;
                         wd_trace := wd_trace st ++ [e] |}).

Definition set_rk30_wd_sc (p : option rk30_wd_softc) : M unit :=
  fun st => Some (tt, {| rk30_wd_sc := p; wd_trace := wd_trace st |}).

Definition get_rk30_wd_sc : M (option rk30_wd_softc) :=
  fun st => Some (rk30_wd_sc st, st).

Declare Scope wd_scope.
Delimit Scope wd_scope with wd.
Notation "x <- c ;; k" := (bind c (fun x => k))
  (at level 61, c at next level, right associativity) : wd_scope.
Notation "c ;; k" := (bind c (fun _ => k))
  (at level 61, right associativity) : wd_scope.
Local Open Scope wd_scope.

Definition nl : string := String (ascii_of_nat 10) EmptyString.

(** [#define RK30_WDT_WRITE(_sc, _r, _v) bus_write_4((_sc)->res, (_r), (_v))] *)
Definition RK30_WDT_WRITE (sc : rk30_wd_softc) (r v : Z) : M unit :=
  emit (BusWrite4 (res sc) r (u32 v)).

Definition mtx_lock (sc : rk30_wd_softc) : M unit := emit (MtxLock sc).
Definition mtx_unlock (sc : rk30_wd_softc) : M unit := emit (MtxUnlock sc).

(** How a call ends: it comes back to its caller, or it spins for ever. *)
Inductive control : Type := Returned | Spinning.

(** [for (;;) ;] with one unit of fuel per turn: no turn leaves the
    loop, so no amount of fuel yields a result. *)
Fixpoint busy_wait (fuel : nat) : option unit :=
  match fuel with
  | O => None
  | S fuel' => busy_wait fuel'
  end.

Section Driver.

(** Constants of the kernel headers, which the driver only names:
    [WD_INTERVAL] (sys/watchdog.h) and [ENXIO] (sys/errno.h). *)
Variable WD_INTERVAL : Z.
Variable ENXIO : Z.

(** C gives no meaning to a 64-bit shift by 64 or more; [shl_oob n] is
    whatever the platform produces for [(uint64_t)1 << n] there. *)
Variable shl_oob : Z -> Z.

(** [(uint64_t)1 << n] *)
Definition shl64_1 (n : Z) : Z :=
  if n <? 64 then u64 (Z.shiftl 1 n) else u64 (shl_oob n).

(** [cmd &= WD_INTERVAL;] on a [u_int]. *)
Definition wd_mask (cmd : Z) : Z := Z.land (u32 cmd) WD_INTERVAL.

(** [ms = ((uint64_t)1 << (cmd & WD_INTERVAL)) / 1000000;] where [cmd]
    has been masked once already. *)
Definition wd_ms (cmd : Z) : Z :=
  shl64_1 (wd_mask (wd_mask cmd)) / 1000000.

(** The watchdog(9) event handler.  [error] is the content of [*error]
    on entry, the result its content on exit. *)
Definition rk30_wd_watchdog_fn (sc : rk30_wd_softc) (cmd : Z) (error : Z)
  : M Z :=
  mtx_lock sc ;;
  if wd_mask cmd >? 0 then
    r <- lift (wd_resolve (wd_ms cmd)) ;;
    match r with
    | Found _ e =>
        RK30_WDT_WRITE sc WDOG_TORR
          (Z.shiftl (value e) WDOG_TORR_INTVL_SHIFT) ;;
        RK30_WDT_WRITE sc WDOG_CTRL
          (Z.lor (Z.lor WDOG_CTRL_EN WDOG_CTRL_RSP_MODE)
                 WDOG_CTRL_RST_PULSE) ;;
        RK30_WDT_WRITE sc WDOG_CRR 0x76 ;;
        mtx_unlock sc ;;
        ret 0
    | Sentinel _ =>
        emit (DevicePrintf (dev sc)
                ("Can't arm, timeout is more than 16 sec" ++ nl)) ;;
        mtx_unlock sc ;;
        RK30_WDT_WRITE sc WDOG_CTRL 0xa ;;
        ret error
    end
  else
    RK30_WDT_WRITE sc WDOG_CTRL 0xa ;;
    mtx_unlock sc ;;
    ret error.

(** [alloc] is the answer of [bus_alloc_resource_any]: [None] for
    NULL. *)
Definition rk30_wd_attach (d : device_t) (alloc : option resource) : M Z :=
  g <- get_rk30_wd_sc ;;
  match g with
  | Some _ => ret ENXIO
  | None =>
      match alloc with
      | None =>
          emit (DevicePrintf d
                  ("could not allocate memory resource" ++ nl)) ;;
          ret ENXIO
      | Some r =>
          let sc := {| dev := d; res := r |} in
          set_rk30_wd_sc (Some sc) ;;
          emit (MtxInit sc) ;;
          emit (EventhandlerRegister sc) ;;
          ret 0
      end
  end.

Definition rk30_wd_watchdog_reset (fuel : nat) : M control :=
  g <- get_rk30_wd_sc ;;
  match g with
  | None =>
      emit (Printf
              ("Reset: watchdog device has not been initialized" ++ nl)) ;;
      ret Returned
  | Some sc =>
      e0 <- lift (nth_error wd_intervals 0) ;;
      RK30_WDT_WRITE sc WDOG_TORR
        (Z.shiftl (value e0) WDOG_TORR_INTVL_SHIFT) ;;
      RK30_WDT_WRITE sc WDOG_CTRL
        (Z.lor (Z.lor WDOG_CTRL_EN WDOG_CTRL_RSP_MODE)
               WDOG_CTRL_RST_PULSE) ;;
      match busy_wait fuel with
      | Some _ => ret Returned
      | None => ret Spinning
      end
  end.

(** Entry points as the kernel may invoke them, in any order. *)
Inductive call : Type :=
| CallAttach (d : device_t) (alloc : option resource)
| CallWatchdogFn (sc : rk30_wd_softc) (cmd error : Z)
| CallReset (fuel : nat).

Definition step (c : call) (st : wd_state) : option wd_state :=
  match c with
  | CallAttach d alloc => option_map snd (rk30_wd_attach d alloc st)
  | CallWatchdogFn sc cmd error =>
      option_map snd (rk30_wd_watchdog_fn sc cmd error st)
  | CallReset fuel => option_map snd (rk30_wd_watchdog_reset fuel st)
  end.

Fixpoint run (cs : list call) (st : wd_state) : option wd_state :=
  match cs with
  | [] => Some st
  | c :: cs' =>
      match step c st with
      | None => None
      | Some st' => run cs' st'
      end
  end.

End Driver.

(** ** Observations on a trace *)

(** The register writes of a trace, as (offset, value) pairs in order. *)
Fixpoint bus_writes (t : list event) : list (Z * Z) :=
  match t with
  | [] => []
  | BusWrite4 _ off v :: t' => (off, v) :: bus_writes t'
  | _ :: t' => bus_writes t'
  end.

(** The mutex operations of a trace, in order. *)
Fixpoint mtx_ops (t : list event) : list event :=
  match t with
  | [] => []
  | MtxLock sc :: t' => MtxLock sc :: mtx_ops t'
  | MtxUnlock sc :: t' => MtxUnlock sc :: mtx_ops t'
  | _ :: t' => mtx_ops t'
  end.

(** Content of CTRL after the writes of [t], from content [init]. *)
Fixpoint ctrl_after (init : Z) (t : list event) : Z :=
  match t with
  | [] => init
  | BusWrite4 _ off v :: t' =>
      if off =? WDOG_CTRL then ctrl_after v t' else ctrl_after init t'
  | _ :: t' => ctrl_after init t'
  end.

(** Bit 0 of CTRL: the counter is running. *)
Definition wd_enabled (ctrl : Z) : bool := Z.testbit ctrl 0.

(** Every register write of [t] happens with the mutex held, given
    whether it is [held] where [t] starts. *)
Fixpoint writes_locked (held : bool) (t : list event) : bool :=
  match t with
  | [] => true
  | MtxLock _ :: t' => writes_locked true t'
  | MtxUnlock _ :: t' => writes_locked false t'
  | BusWrite4 _ _ _ :: t' => held && writes_locked held t'
  | _ :: t' => writes_locked held t'
  end.

(** The events a computation adds to the trace of [st]. *)
Definition added (st st' : wd_state) : list event :=
  skipn (List.length (wd_trace st)) (wd_trace st').

(** [st] with the events [evs] appended to its trace. *)
Definition push (st : wd_state) (evs : list event) : wd_state :=
  {| rk30_wd_sc := rk30_wd_sc st; wd_trace := wd_trace st ++ evs |}.

(** [e] at index [i] is the first entry of the table, in index order,
    whose threshold is at least [ms]. *)
Definition first_covering (ms : Z) (i : nat) (e : rk30_wd_interval) : Prop :=
  nth_error wd_intervals i = Some e /\
  ms <= milliseconds e /\
  forall j e', (j < i)%nat -> nth_error wd_intervals j = Some e' ->
               milliseconds e' < ms.

(** The CTRL pattern that arms the counter. *)
Definition wd_arm_pattern : Z :=
  Z.lor (Z.lor WDOG_CTRL_EN WDOG_CTRL_RSP_MODE) WDOG_CTRL_RST_PULSE.

(** ** Concrete instances, for runs on explicit inputs

    The values FreeBSD gives the two header constants, a platform whose
    oversized shifts produce 0, and one attached device. *)
Definition freebsd_WD_INTERVAL : Z := 0xff.
Definition freebsd_ENXIO : Z := 6.
Definition shl_zero : Z -> Z := fun _ => 0.
Definition sample_sc : rk30_wd_softc := {| dev := 0%nat; res := 0%nat |}.

(** The state right after [sample_sc] was attached at boot. *)
Definition sample_bound : wd_state :=
  {| rk30_wd_sc := Some sample_sc;
     wd_trace := [MtxInit sample_sc; EventhandlerRegister sample_sc] |}.

(** ** Further observations *)

(** The request of [cmd] ends on the arming path: the masked field is
    non-zero and the derived [ms] is within the table. *)
Definition wd_armable (WD_INTERVAL : Z) (shl_oob : Z -> Z) (cmd : Z) : bool :=
  negb (wd_mask WD_INTERVAL cmd =? 0) &&
  (wd_ms WD_INTERVAL shl_oob cmd <=? wd_max_ms).

(** The softc of the first attach of [cs] that was given a resource. *)
Fixpoint first_attach (cs : list call) : option rk30_wd_softc :=
  match cs with
  | [] => None
  | CallAttach d (Some r) :: _ => Some {| dev := d; res := r |}
  | _ :: cs' => first_attach cs'
  end.

(** The softcs handed to [EVENTHANDLER_REGISTER], in order. *)
Fixpoint registered (t : list event) : list rk30_wd_softc :=
  match t with
  | [] => []
  | EventhandlerRegister sc :: t' => sc :: registered t'
  | _ :: t' => registered t'
  end.

(** The softcs whose mutex was initialised, in order. *)
Fixpoint mtx_inits (t : list event) : list rk30_wd_softc :=
  match t with
  | [] => []
  | MtxInit sc :: t' => sc :: mtx_inits t'
  | _ :: t' => mtx_inits t'
  end.

(** The event concerns the device of [sc]: its mutex, its register
    window, or its console prefix. *)
Definition on_device (sc : rk30_wd_softc) (e : event) : Prop :=
  match e with
  | MtxInit s | MtxLock s | MtxUnlock s | EventhandlerRegister s => s = sc
  | BusWrite4 r _ _ => r = res sc
  | DevicePrintf d _ => d = dev sc
  | Printf _ => False
  end.

(** A register write the driver is expected to make: a 4-bit selector
    to TORR, the arm or the disable pattern to CTRL, the restart magic
    to CRR. *)
Definition wd_write_ok (w : Z * Z) : Prop :=
  (fst w = WDOG_TORR /\ 0 <= snd w < 16) \/
  (fst w = WDOG_CTRL /\ (snd w = wd_arm_pattern \/ snd w = 0x0a)) \/
  (fst w = WDOG_CRR /\ snd w = 0x76).

(** The bucket of a timeout of [2 ^ n] nanoseconds carries the value
    [max 0 (n - 31)]. *)
Definition exponent_bucket_ok (n : Z) : bool :=
  match wd_resolve (2 ^ n / 1000000) with
  | Some (Found _ e) => value e =? Z.max 0 (n - 31)
  | _ => false
  end.

(** * Properties *)

(** ** The scan over an arbitrary table *)

Section Scan.

Variable tbl : list rk30_wd_interval.
Variable ms : Z.

(** Where the scan stops, the loop condition is false; everywhere it
    passed, the condition was true. *)
Lemma wd_scan_stops (fuel : nat) :
  forall i k, wd_scan tbl fuel ms i = Some k ->
    (i <= k)%nat /\
    (forall j e, (i <= j < k)%nat -> nth_error tbl j = Some e ->
                 milliseconds e <> 0 /\ milliseconds e < ms) /\
    exists e, nth_error tbl k = Some e /\
              (milliseconds e = 0 \/ ms <= milliseconds e).
Proof.
  induction fuel as [|fuel IH]; intros i k H; simpl in H; [discriminate|].
  destruct (nth_error tbl i) as [e|] eqn:Hi; [|discriminate].
  destruct (negb (milliseconds e =? 0) && (ms >? milliseconds e)) eqn:Hc.
  - apply IH in H. destruct H as (Hle & Hpass & Hstop).
    apply andb_true_iff in Hc. destruct Hc as [Hnz Hgt].
    apply negb_true_iff, Z.eqb_neq in Hnz.
    apply Z.gtb_lt in Hgt.
    split; [lia|]. split; [|exact Hstop].
    intros j e' Hj He'.
    destruct (Nat.eq_dec j i) as [->|Hne].
    + rewrite Hi in He'. injection He' as <-. split; assumption.
    + apply (Hpass j e'); [lia|assumption].
  - injection H as <-. split; [lia|]. split; [intros j e' Hj; lia|].
    exists e. split; [assumption|].
    apply andb_false_iff in Hc. destruct Hc as [Hz|Hle].
    + left. apply negb_false_iff, Z.eqb_eq in Hz. assumption.
    + right. rewrite Z.gtb_ltb in Hle. apply Z.ltb_ge in Hle. assumption.
Qed.

(** A sentinel at index [s] stops the scan at or before [s], provided
    the fuel covers the distance. *)
Lemma wd_scan_reaches_sentinel (s : nat) (z : rk30_wd_interval) :
  nth_error tbl s = Some z -> milliseconds z = 0 ->
  forall fuel i, (i <= s)%nat -> (s - i < fuel)%nat ->
    exists k, wd_scan tbl fuel ms i = Some k /\ (k <= s)%nat.
Proof.
  intros Hs Hz. induction fuel as [|fuel IH]; intros i Hi Hf; [lia|].
  simpl.
  destruct (nth_error tbl i) as [e|] eqn:He.
  - destruct (negb (milliseconds e =? 0) && (ms >? milliseconds e)) eqn:Hc.
    + destruct (Nat.eq_dec i s) as [->|Hne].
      * rewrite Hs in He. injection He as <-.
        rewrite Hz in Hc. simpl in Hc. discriminate.
      * apply IH; lia.
    + exists i. split; [reflexivity|assumption].
  - exfalso. apply nth_error_None in He.
    assert (Hlt : (s < List.length tbl)%nat)
      by (apply nth_error_Some; rewrite Hs; discriminate).
    lia.
Qed.

(** More fuel never changes an answer. *)
Lemma wd_scan_fuel_mono (fuel : nat) :
  forall i k, wd_scan tbl fuel ms i = Some k ->
    forall fuel', (fuel <= fuel')%nat -> wd_scan tbl fuel' ms i = Some k.
Proof.
  induction fuel as [|fuel IH]; intros i k H fuel' Hle; [discriminate|].
  destruct fuel' as [|fuel']; [lia|].
  simpl in *.
  destruct (nth_error tbl i) as [e|]; [|discriminate].
  destruct (negb (milliseconds e =? 0) && (ms >? milliseconds e)).
  - apply IH with (fuel' := fuel') in H; [assumption|lia].
  - assumption.
Qed.

End Scan.

(** ** Facts about [wd_intervals] *)

(** Case analysis on an index into the 17-entry table. *)
Ltac table_cases i n :=
  lazymatch n with
  | O => idtac
  | S ?n' => let j := fresh "i" in destruct i as [|j]; [|table_cases j n']
  end.

Ltac off_table :=
  match goal with
  | H : nth_error [] ?j = Some _ |- _ => destruct j; discriminate H
  end.

Ltac table_index i := table_cases i 17%nat; simpl in *; try off_table.

Lemma wd_intervals_sentinel_last :
  nth_error wd_intervals 16 = Some {| milliseconds := 0; value := 0 |}.
Proof. reflexivity. Qed.

Lemma wd_intervals_sentinel_unique (i : nat) (e : rk30_wd_interval) :
  nth_error wd_intervals i = Some e -> milliseconds e = 0 -> i = 16%nat.
Proof.
  intros Hi Hz. table_index i;
    injection Hi as <-; simpl in Hz; (reflexivity || discriminate).
Qed.

Lemma wd_intervals_in_bounds (i : nat) (e : rk30_wd_interval) :
  nth_error wd_intervals i = Some e -> (i <= 16)%nat.
Proof.
  intros Hi.
  assert (H : (i < List.length wd_intervals)%nat)
    by (apply nth_error_Some; rewrite Hi; discriminate).
  simpl in H. lia.
Qed.

(** Thresholds are positive, and encoded values fit the 4-bit selector,
    on every real entry. *)
Lemma wd_intervals_entry (i : nat) (e : rk30_wd_interval) :
  nth_error wd_intervals i = Some e ->
  0 <= milliseconds e <= wd_max_ms /\ 0 <= value e < 16 /\
  ((i < 16)%nat -> value e = Z.of_nat i /\ 2730 <= milliseconds e).
Proof.
  intros Hi. unfold wd_max_ms. table_index i;
    injection Hi as <-; simpl; lia.
Qed.

(** Adjacent real entries have strictly increasing thresholds. *)
Lemma wd_intervals_adjacent (j : nat) (lo hi : rk30_wd_interval) :
  (S j < 16)%nat ->
  nth_error wd_intervals j = Some lo ->
  nth_error wd_intervals (S j) = Some hi ->
  milliseconds lo < milliseconds hi.
Proof.
  intros Hj Hlo Hhi. table_index j; try lia;
    injection Hlo as <-; injection Hhi as <-; simpl; lia.
Qed.

(** The 16 real entries are sorted ascending by threshold. *)
Lemma wd_intervals_sorted (b : nat) :
  forall a ea eb, (a <= b)%nat -> (b < 16)%nat ->
    nth_error wd_intervals a = Some ea ->
    nth_error wd_intervals b = Some eb ->
    milliseconds ea <= milliseconds eb.
Proof.
  induction b as [|b IH]; intros a ea eb Hab Hb Ha Heb.
  - assert (a = 0%nat) by lia. subst a.
    rewrite Ha in Heb. injection Heb as <-. lia.
  - destruct (Nat.eq_dec a (S b)) as [->|Hne].
    + rewrite Ha in Heb. injection Heb as <-. lia.
    + destruct (nth_error wd_intervals b) as [em|] eqn:Hm.
      * assert (milliseconds ea <= milliseconds em)
          by (apply (IH a ea em); [lia|lia|assumption|reflexivity]).
        assert (milliseconds em < milliseconds eb)
          by (apply (wd_intervals_adjacent b em eb Hb Hm Heb)).
        lia.
      * apply nth_error_None in Hm. simpl in Hm. lia.
Qed.

(** The scan over [wd_intervals] always stops inside the array. *)
Lemma wd_scan_table_total (ms : Z) :
  exists k, wd_scan wd_intervals (List.length wd_intervals) ms 0 = Some k /\
            (k <= 16)%nat.
Proof.
  apply (wd_scan_reaches_sentinel wd_intervals ms 16 _
           wd_intervals_sentinel_last);
    simpl; [reflexivity|lia|lia].
Qed.

(** [wd_resolve] unfolded along the index the scan stops at. *)
Lemma wd_resolve_at (ms : Z) (k : nat) (e : rk30_wd_interval) :
  wd_scan wd_intervals (List.length wd_intervals) ms 0 = Some k ->
  nth_error wd_intervals k = Some e ->
  wd_resolve ms =
    if negb (milliseconds e =? 0) then Some (Found k e) else Some (Sentinel k).
Proof. intros Hk He. unfold wd_resolve. rewrite Hk, He. reflexivity. Qed.

(** A first covering entry, when there is one, is what [wd_resolve]
    finds. *)
Lemma wd_resolve_covering (ms : Z) (i : nat) (e : rk30_wd_interval) :
  first_covering ms i e -> wd_resolve ms = Some (Found i e).
Proof.
  intros (Hi & Hcov & Hbelow).
  destruct (wd_scan_table_total ms) as (k & Hk & Hk16).
  destruct (wd_scan_stops _ _ _ _ _ Hk) as (_ & Hpass & ek & Hek & Hstop).
  assert (Hik : k = i).
  { destruct (Nat.lt_trichotomy k i) as [Hlt|[Heq|Hgt]]; [|assumption|].
    - pose proof (Hbelow k ek Hlt Hek) as Hb.
      destruct Hstop as [Hz|Hle]; [|lia].
      pose proof (wd_intervals_sentinel_unique _ _ Hek Hz).
      pose proof (wd_intervals_in_bounds _ _ Hi). lia.
    - destruct (Hpass i e) as [_ Hlt]; [lia|assumption|lia]. }
  subst k. rewrite Hi in Hek. injection Hek as <-.
  rewrite (wd_resolve_at _ _ _ Hk Hi).
  destruct (milliseconds e =? 0) eqn:Hz; [|reflexivity].
  exfalso. apply Z.eqb_eq in Hz.
  pose proof (wd_intervals_sentinel_unique _ _ Hi Hz). subst i.
  assert (H0 : milliseconds {| milliseconds := 2730; value := 0 |} < ms)
    by (apply (Hbelow 0%nat); [lia|reflexivity]).
  simpl in H0. lia.
Qed.

(** What [wd_resolve] finds is a first covering entry. *)
Lemma wd_resolve_found (ms : Z) (i : nat) (e : rk30_wd_interval) :
  wd_resolve ms = Some (Found i e) -> first_covering ms i e.
Proof.
  unfold wd_resolve. intros H.
  destruct (wd_scan wd_intervals (List.length wd_intervals) ms 0)
    as [k|] eqn:Hk; [|discriminate].
  destruct (nth_error wd_intervals k) as [ek|] eqn:Hek; [|discriminate].
  destruct (negb (milliseconds ek =? 0)) eqn:Hnz; [|discriminate].
  injection H as -> ->.
  apply negb_true_iff, Z.eqb_neq in Hnz.
  destruct (wd_scan_stops _ _ _ _ _ Hk) as (_ & Hpass & e' & He' & Hstop).
  rewrite Hek in He'. injection He' as <-.
  split; [assumption|]. split; [destruct Hstop; [contradiction|assumption]|].
  intros j ej Hj Hej. apply (Hpass j ej); [lia|assumption].
Qed.

(** Above the largest threshold the scan runs into the sentinel. *)
Lemma wd_resolve_above_max (ms : Z) :
  wd_max_ms < ms -> wd_resolve ms = Some (Sentinel 16).
Proof.
  intros Hms.
  destruct (wd_scan_table_total ms) as (k & Hk & Hk16).
  destruct (wd_scan_stops _ _ _ _ _ Hk) as (_ & _ & ek & Hek & Hstop).
  destruct (wd_intervals_entry _ _ Hek) as (Hrange & _).
  destruct Hstop as [Hz|Hle]; [|lia].
  pose proof (wd_intervals_sentinel_unique _ _ Hek Hz). subst k.
  rewrite (wd_resolve_at _ _ _ Hk Hek).
  apply Z.eqb_eq in Hz. rewrite Hz. reflexivity.
Qed.

(** At or below the largest threshold the scan stops on a real bucket. *)
Lemma wd_resolve_upto_max (ms : Z) :
  ms <= wd_max_ms ->
  exists i e, wd_resolve ms = Some (Found i e) /\ (i < 16)%nat.
Proof.
  intros Hms.
  destruct (wd_scan_table_total ms) as (k & Hk & Hk16).
  destruct (wd_scan_stops _ _ _ _ _ Hk) as (_ & Hpass & ek & Hek & Hstop).
  destruct (Nat.eq_dec k 16) as [->|Hne].
  - exfalso.
    destruct (Hpass 15%nat {| milliseconds := 89456640; value := 15 |})
      as [_ Hlt]; [lia|reflexivity|].
    simpl in Hlt. unfold wd_max_ms in Hms. lia.
  - exists k, ek. split; [|lia].
    rewrite (wd_resolve_at _ _ _ Hk Hek).
    destruct (milliseconds ek =? 0) eqn:Hz; [|reflexivity].
    apply Z.eqb_eq in Hz.
    pose proof (wd_intervals_sentinel_unique _ _ Hek Hz). contradiction.
Qed.

(** Strictly between two adjacent thresholds, the higher entry is the
    first covering one. *)
Lemma first_covering_between (ms : Z) (j : nat) (lo hi : rk30_wd_interval) :
  nth_error wd_intervals j = Some lo ->
  nth_error wd_intervals (S j) = Some hi ->
  milliseconds lo < ms < milliseconds hi ->
  first_covering ms (S j) hi.
Proof.
  intros Hlo Hhi [Hl Hh].
  destruct (wd_intervals_entry _ _ Hlo) as ([Hlo0 _] & _).
  pose proof (wd_intervals_in_bounds _ _ Hhi) as Hb.
  assert (Hj : (j < 15)%nat).
  { destruct (Nat.eq_dec (S j) 16) as [E|E]; [|lia].
    rewrite E in Hhi. rewrite wd_intervals_sentinel_last in Hhi.
    injection Hhi as <-. simpl in Hh. lia. }
  split; [assumption|]. split; [lia|].
  intros j' e' Hj' He'.
  assert (milliseconds e' <= milliseconds lo)
    by (apply (wd_intervals_sorted j j' e' lo); [lia|lia|assumption..]).
  lia.
Qed.

(** ** The interval resolution *)

(** C1: the 16 real entries are in ascending threshold order, and for
    every requested [ms] the scan in [rk30_wd_watchdog_fn] returns the
    first table entry, in that order, whose threshold is at least [ms],
    and nothing else; for [ms = 0] that is entry 0, with encoded value 0;
    for [ms] strictly between two adjacent thresholds it is the higher of
    the two. *)
Theorem wd_resolve_first_covering :
  (forall a b ea eb, (a <= b < 16)%nat ->
     nth_error wd_intervals a = Some ea ->
     nth_error wd_intervals b = Some eb ->
     milliseconds ea <= milliseconds eb) /\
  (forall ms i e, first_covering ms i e -> wd_resolve ms = Some (Found i e)) /\
  (forall ms i e, wd_resolve ms = Some (Found i e) -> first_covering ms i e) /\
  wd_resolve 0 = Some (Found 0 {| milliseconds := 2730; value := 0 |}) /\
  (forall ms j lo hi,
     nth_error wd_intervals j = Some lo ->
     nth_error wd_intervals (S j) = Some hi ->
     milliseconds lo < ms < milliseconds hi ->
     wd_resolve ms = Some (Found (S j) hi)).
Proof.
  split; [intros a b ea eb [Hab Hb]; apply wd_intervals_sorted; assumption|].
  split; [exact wd_resolve_covering|].
  split; [exact wd_resolve_found|].
  split; [reflexivity|].
  intros ms j lo hi Hlo Hhi Hms.
  apply wd_resolve_covering.
  apply (first_covering_between ms j lo hi Hlo Hhi Hms).
Qed.

Lemma wd_resolve_first_covering_witness :
  first_covering 3000 1 {| milliseconds := 5460; value := 1 |} /\
  wd_resolve 3000 = Some (Found 1 {| milliseconds := 5460; value := 1 |}).
Proof.
  assert (H : first_covering 3000 1 {| milliseconds := 5460; value := 1 |}).
  { split; [reflexivity|]. split; [simpl; lia|].
    intros j e' Hj He'. destruct j as [|j]; [|lia].
    injection He' as <-. simpl. lia. }
  split; [exact H|].
  apply (proj1 (proj2 wd_resolve_first_covering) 3000 1%nat _ H).
Defined.

(** C6: the resolution ends on the sentinel (the spec's [None]) exactly
    when [ms] exceeds the largest threshold 89,456,640, and on a real
    bucket exactly when [ms] is at or below it; 89,456,641 ends on the
    sentinel. *)
Theorem wd_resolve_sentinel_iff_above_max :
  wd_max_ms = 89456640 /\
  (forall ms, (exists i, wd_resolve ms = Some (Sentinel i)) <-> wd_max_ms < ms) /\
  (forall ms, (exists i e, wd_resolve ms = Some (Found i e)) <->
              ms <= wd_max_ms) /\
  wd_resolve 89456641 = Some (Sentinel 16).
Proof.
  split; [reflexivity|]. split; [|split; [|reflexivity]].
  - intros ms. split.
    + intros [i Hi]. destruct (Z.lt_ge_cases wd_max_ms ms) as [|Hle];
        [assumption|].
      destruct (wd_resolve_upto_max ms Hle) as (k & e & Hk & _).
      rewrite Hk in Hi. discriminate.
    + intros Hlt. exists 16%nat. apply wd_resolve_above_max. assumption.
  - intros ms. split.
    + intros (i & e & Hi). destruct (Z.lt_ge_cases wd_max_ms ms) as [Hlt|];
        [|assumption].
      rewrite (wd_resolve_above_max ms Hlt) in Hi. discriminate.
    + intros Hle. destruct (wd_resolve_upto_max ms Hle) as (k & e & Hk & _).
      exists k, e. assumption.
Qed.

(** C10: for every [ms] the scan stops: the last entry of the table is
    the sentinel with [milliseconds = 0], so 17 units of fuel (one per
    entry) always give an index within the array, any larger amount gives
    the same index, at most 17 entries are examined, and the resolution
    is defined on every input. *)
Theorem wd_scan_terminates (ms : Z) :
  List.length wd_intervals = 17%nat /\
  option_map milliseconds (nth_error wd_intervals 16) = Some 0 /\
  exists k,
    wd_scan wd_intervals 17 ms 0 = Some k /\ (k <= 16)%nat /\
    (forall fuel, (17 <= fuel)%nat ->
                  wd_scan wd_intervals fuel ms 0 = Some k) /\
    wd_examined ms = Some (S k) /\ (S k <= 17)%nat /\
    exists r, wd_resolve ms = Some r.
Proof.
  split; [reflexivity|]. split; [reflexivity|].
  destruct (wd_scan_table_total ms) as (k & Hk & Hk16).
  change (List.length wd_intervals) with 17%nat in Hk.
  exists k. split; [assumption|]. split; [assumption|].
  split; [intros fuel Hf; apply (wd_scan_fuel_mono _ _ _ _ _ Hk); assumption|].
  split; [unfold wd_examined;
          change (List.length wd_intervals) with 17%nat; rewrite Hk;
          reflexivity|].
  split; [lia|].
  destruct (Z.lt_ge_cases wd_max_ms ms) as [Hlt|Hle].
  - exists (Sentinel 16). apply wd_resolve_above_max. assumption.
  - destruct (wd_resolve_upto_max ms Hle) as (i & e & Hi & _).
    exists (Found i e). assumption.
Qed.

(** ** Running the monad *)

Lemma push_push (st : wd_state) (a b : list event) :
  push (push st a) b = push st (a ++ b).
Proof. unfold push. simpl. rewrite app_assoc. reflexivity. Qed.

Lemma emit_run (e : event) (st : wd_state) :
  emit e st = Some (tt, push st [e]).
Proof. reflexivity. Qed.

Lemma added_push (st : wd_state) (evs : list event) :
  added st (push st evs) = evs.
Proof.
  unfold added, push. simpl.
  rewrite skipn_app, Nat.sub_diag, skipn_all. reflexivity.
Qed.

Lemma u32_small (z : Z) : 0 <= z < 2 ^ 32 -> u32 z = z.
Proof. intros H. unfold u32. apply Z.mod_small. assumption. Qed.

Lemma wd_arm_pattern_value : wd_arm_pattern = 0x13.
Proof. reflexivity. Qed.

Lemma busy_wait_diverges (fuel : nat) : busy_wait fuel = None.
Proof. induction fuel as [|fuel IH]; simpl; [reflexivity|exact IH]. Qed.

Lemma wd_mask_nonneg (WD_INTERVAL cmd : Z) : 0 <= wd_mask WD_INTERVAL cmd.
Proof.
  unfold wd_mask. apply Z.land_nonneg. left.
  unfold u32. apply Z.mod_pos_bound. lia.
Qed.

Lemma wd_mask_test (WD_INTERVAL cmd : Z) :
  (wd_mask WD_INTERVAL cmd >? 0) = negb (wd_mask WD_INTERVAL cmd =? 0).
Proof.
  pose proof (wd_mask_nonneg WD_INTERVAL cmd) as H.
  destruct (Z.eqb_spec (wd_mask WD_INTERVAL cmd) 0) as [E|E]; simpl.
  - rewrite E. reflexivity.
  - apply Z.gtb_lt. lia.
Qed.

(** Step through the [emit]s of an unfolded computation. *)
Ltac run_emits :=
  repeat (progress (rewrite ?emit_run; cbv beta iota));
  rewrite ?push_push.

(** ** The three paths of [rk30_wd_watchdog_fn] *)

Section Handler.

Variable WD_INTERVAL : Z.
Variable shl_oob : Z -> Z.
Variable sc : rk30_wd_softc.
Variables cmd error : Z.
Variable st : wd_state.

Local Abbreviation fn := (rk30_wd_watchdog_fn WD_INTERVAL shl_oob).
Local Abbreviation ms := (wd_ms WD_INTERVAL shl_oob cmd).

(** Masked selector zero: disable under the lock; [*error] untouched. *)
Lemma fn_disarm_run :
  wd_mask WD_INTERVAL cmd = 0 ->
  fn sc cmd error st =
    Some (error, push st [MtxLock sc; BusWrite4 (res sc) WDOG_CTRL 0xa;
                          MtxUnlock sc]).
Proof.
  intros Hm. unfold rk30_wd_watchdog_fn.
  rewrite wd_mask_test, Hm. change (negb (0 =? 0)) with false.
  unfold bind, mtx_lock, mtx_unlock, RK30_WDT_WRITE, ret.
  run_emits. reflexivity.
Qed.

(** A bucket was found: TORR, CTRL, CRR under the lock; [*error = 0]. *)
Lemma fn_arm_run (i : nat) (e : rk30_wd_interval) :
  wd_mask WD_INTERVAL cmd <> 0 ->
  wd_resolve ms = Some (Found i e) ->
  fn sc cmd error st =
    Some (0, push st [MtxLock sc;
                      BusWrite4 (res sc) WDOG_TORR (value e);
                      BusWrite4 (res sc) WDOG_CTRL wd_arm_pattern;
                      BusWrite4 (res sc) WDOG_CRR 0x76;
                      MtxUnlock sc]).
Proof.
  intros Hm Hr. unfold rk30_wd_watchdog_fn.
  rewrite wd_mask_test. apply Z.eqb_neq in Hm. rewrite Hm.
  destruct (wd_resolve_found _ _ _ Hr) as (Hi & _).
  destruct (wd_intervals_entry _ _ Hi) as (_ & Hv & _).
  simpl negb. unfold bind, mtx_lock, mtx_unlock, RK30_WDT_WRITE, lift, ret.
  run_emits. rewrite Hr. run_emits. simpl app.
  unfold WDOG_TORR_INTVL_SHIFT. rewrite ?Z.shiftl_0_r.
  rewrite (u32_small (value e)) by lia.
  reflexivity.
Qed.

(** The scan ran into the sentinel: message, unlock, then the disable
    write; [*error] untouched. *)
Lemma fn_cannot_arm_run (i : nat) :
  wd_mask WD_INTERVAL cmd <> 0 ->
  wd_resolve ms = Some (Sentinel i) ->
  fn sc cmd error st =
    Some (error,
          push st [MtxLock sc;
                   DevicePrintf (dev sc)
                     ("Can't arm, timeout is more than 16 sec" ++ nl);
                   MtxUnlock sc;
                   BusWrite4 (res sc) WDOG_CTRL 0xa]).
Proof.
  intros Hm Hr. unfold rk30_wd_watchdog_fn.
  rewrite wd_mask_test. apply Z.eqb_neq in Hm. rewrite Hm.
  simpl negb. unfold bind, mtx_lock, mtx_unlock, RK30_WDT_WRITE, lift, ret.
  run_emits. rewrite Hr. run_emits. reflexivity.
Qed.

(** The handler never faults. *)
Lemma fn_total : exists err evs, fn sc cmd error st = Some (err, push st evs).
Proof.
  destruct (Z.eq_dec (wd_mask WD_INTERVAL cmd) 0) as [Hm|Hm].
  - eexists _, _. apply fn_disarm_run. assumption.
  - destruct (Z.lt_ge_cases wd_max_ms ms) as [Hlt|Hle].
    + eexists _, _. apply (fn_cannot_arm_run 16 Hm).
      apply wd_resolve_above_max. assumption.
    + destruct (wd_resolve_upto_max ms Hle) as (i & e & Hi & _).
      eexists _, _. apply (fn_arm_run i e Hm Hi).
Qed.

End Handler.

(** On the two paths that keep the lock across their writes, every
    register write is made with the mutex held. *)
Lemma fn_writes_locked (WD_INTERVAL : Z) (shl_oob : Z -> Z)
    (sc : rk30_wd_softc) (cmd error : Z) (st : wd_state) :
  wd_mask WD_INTERVAL cmd = 0 \/ wd_ms WD_INTERVAL shl_oob cmd <= wd_max_ms ->
  exists err evs,
    rk30_wd_watchdog_fn WD_INTERVAL shl_oob sc cmd error st =
      Some (err, push st evs) /\
    writes_locked false evs = true.
Proof.
  intros H.
  destruct (Z.eq_dec (wd_mask WD_INTERVAL cmd) 0) as [Hm|Hm].
  - eexists _, _. split; [apply fn_disarm_run; assumption|reflexivity].
  - destruct H as [H|H]; [contradiction|].
    destruct (wd_resolve_upto_max _ H) as (i & e & Hi & _).
    eexists _, _. split; [apply (fn_arm_run _ _ _ _ _ _ i e Hm Hi)|reflexivity].
Qed.

(** ** The event handler *)

(** C2: whenever the masked interval field is non-zero and the derived
    [ms] is covered by the table, the handler makes exactly three
    register writes, in this order: the encoded value of the resolved
    entry to TORR, the pattern enable | response-mode | reset-pulse to
    CTRL, the magic 0x76 to CRR; a derived [ms] of 10920 puts 2 into
    TORR, the encoded value of the entry the boundary 10920 resolves
    to. *)
Theorem fn_arm_sequence (WD_INTERVAL : Z) (shl_oob : Z -> Z)
    (sc : rk30_wd_softc) (cmd error : Z) (st : wd_state) :
  wd_mask WD_INTERVAL cmd <> 0 ->
  wd_ms WD_INTERVAL shl_oob cmd <= wd_max_ms ->
  exists i e st',
    wd_resolve (wd_ms WD_INTERVAL shl_oob cmd) = Some (Found i e) /\
    rk30_wd_watchdog_fn WD_INTERVAL shl_oob sc cmd error st = Some (0, st') /\
    bus_writes (added st st') =
      [(WDOG_TORR, value e);
       (WDOG_CTRL,
        Z.lor (Z.lor WDOG_CTRL_EN WDOG_CTRL_RSP_MODE) WDOG_CTRL_RST_PULSE);
       (WDOG_CRR, 0x76)] /\
    (wd_ms WD_INTERVAL shl_oob cmd = 10920 -> value e = 2) /\
    wd_resolve 10920 = Some (Found 2 {| milliseconds := 10920; value := 2 |}).
Proof.
  intros Hm Hms.
  destruct (wd_resolve_upto_max _ Hms) as (i & e & Hi & _).
  exists i, e. eexists. split; [exact Hi|].
  split; [apply (fn_arm_run _ _ _ _ _ _ i e Hm Hi)|].
  split; [rewrite added_push; reflexivity|].
  split; [|reflexivity].
  intros E. rewrite E in Hi. vm_compute in Hi. injection Hi as _ <-.
  reflexivity.
Qed.

Lemma fn_arm_sequence_witness :
  exists i e st',
    wd_resolve (wd_ms freebsd_WD_INTERVAL shl_zero 33) = Some (Found i e) /\
    rk30_wd_watchdog_fn freebsd_WD_INTERVAL shl_zero sample_sc 33 45 wd_boot =
      Some (0, st') /\
    bus_writes (added wd_boot st') =
      [(WDOG_TORR, value e);
       (WDOG_CTRL,
        Z.lor (Z.lor WDOG_CTRL_EN WDOG_CTRL_RSP_MODE) WDOG_CTRL_RST_PULSE);
       (WDOG_CRR, 0x76)] /\
    (wd_ms freebsd_WD_INTERVAL shl_zero 33 = 10920 -> value e = 2) /\
    wd_resolve 10920 = Some (Found 2 {| milliseconds := 10920; value := 2 |}).
Proof.
  apply (fn_arm_sequence freebsd_WD_INTERVAL shl_zero sample_sc 33 45 wd_boot).
  - vm_compute. discriminate.
  - vm_compute. discriminate.
Defined.

(** C3 (as amended): whenever the masked interval field is non-zero and
    the derived [ms] exceeds the largest threshold, the handler logs the
    failure, writes the disable pattern 0x0a to CTRL and nothing else,
    which leaves the counter stopped, and returns without storing to
    [*error]: the caller reads back the value it passed in. *)
Theorem fn_cannot_arm_disables (WD_INTERVAL : Z) (shl_oob : Z -> Z)
    (sc : rk30_wd_softc) (cmd error : Z) (st : wd_state) (init : Z) :
  wd_mask WD_INTERVAL cmd <> 0 ->
  wd_max_ms < wd_ms WD_INTERVAL shl_oob cmd ->
  exists st',
    rk30_wd_watchdog_fn WD_INTERVAL shl_oob sc cmd error st =
      Some (error, st') /\
    bus_writes (added st st') = [(WDOG_CTRL, 0x0a)] /\
    wd_enabled (ctrl_after init (added st st')) = false /\
    In (DevicePrintf (dev sc) ("Can't arm, timeout is more than 16 sec" ++ nl))
       (added st st').
Proof.
  intros Hm Hms. eexists. split.
  - apply (fn_cannot_arm_run _ _ _ _ _ _ 16 Hm).
    apply wd_resolve_above_max. assumption.
  - rewrite added_push. split; [reflexivity|]. split; [reflexivity|].
    simpl. right. left. reflexivity.
Qed.

Lemma fn_cannot_arm_disables_witness :
  exists st',
    rk30_wd_watchdog_fn freebsd_WD_INTERVAL shl_zero sample_sc 47 45 wd_boot =
      Some (45, st') /\
    bus_writes (added wd_boot st') = [(WDOG_CTRL, 0x0a)] /\
    wd_enabled (ctrl_after wd_arm_pattern (added wd_boot st')) = false /\
    In (DevicePrintf (dev sample_sc)
          ("Can't arm, timeout is more than 16 sec" ++ nl))
       (added wd_boot st').
Proof.
  apply (fn_cannot_arm_disables freebsd_WD_INTERVAL shl_zero sample_sc 47 45
           wd_boot wd_arm_pattern).
  - vm_compute. discriminate.
  - vm_compute. reflexivity.
Defined.

(** Against C3 as stated: with the FreeBSD mask, [cmd = 47] (a derived
    [ms] of 140,737,488) and [*error = 0] on entry, the handler takes the
    cannot-arm path and hands back 0, the very value the arming path
    stores for success. *)
Lemma fn_cannot_arm_returns_zero :
  wd_mask freebsd_WD_INTERVAL 47 <> 0 /\
  wd_max_ms < wd_ms freebsd_WD_INTERVAL shl_zero 47 /\
  option_map fst
    (rk30_wd_watchdog_fn freebsd_WD_INTERVAL shl_zero sample_sc 47 0 wd_boot)
  = Some 0 /\
  option_map fst
    (rk30_wd_watchdog_fn freebsd_WD_INTERVAL shl_zero sample_sc 33 45 wd_boot)
  = Some 0.
Proof.
  split; [vm_compute; discriminate|].
  split; [vm_compute; reflexivity|].
  split; vm_compute; reflexivity.
Qed.

(** C4: the failing input.  With the FreeBSD mask and [cmd = 47] the
    handler releases the mutex and only then writes the disable pattern:
    that register write is made without the lock. *)
Theorem fn_cannot_arm_write_after_unlock :
  exists st',
    rk30_wd_watchdog_fn freebsd_WD_INTERVAL shl_zero sample_sc 47 0 wd_boot =
      Some (0, st') /\
    wd_trace st' =
      [MtxLock sample_sc;
       DevicePrintf (dev sample_sc)
         ("Can't arm, timeout is more than 16 sec" ++ nl);
       MtxUnlock sample_sc;
       BusWrite4 (res sample_sc) WDOG_CTRL 0x0a] /\
    writes_locked false (wd_trace st') = false.
Proof.
  eexists. split; [vm_compute; reflexivity|].
  split; reflexivity.
Qed.

(** C5 (as amended): whenever the masked interval field is zero, the
    handler writes the disable pattern 0x0a to CTRL and makes no other
    register write, whatever CTRL held before, which leaves the counter
    stopped; it returns without storing to [*error], so the caller reads
    back the value it passed in. *)
Theorem fn_disarm_writes (WD_INTERVAL : Z) (shl_oob : Z -> Z)
    (sc : rk30_wd_softc) (cmd error : Z) (st : wd_state) (init : Z) :
  wd_mask WD_INTERVAL cmd = 0 ->
  exists st',
    rk30_wd_watchdog_fn WD_INTERVAL shl_oob sc cmd error st =
      Some (error, st') /\
    bus_writes (added st st') = [(WDOG_CTRL, 0x0a)] /\
    wd_enabled (ctrl_after init (added st st')) = false.
Proof.
  intros Hm. eexists. split; [apply fn_disarm_run; assumption|].
  rewrite added_push. split; reflexivity.
Qed.

Lemma fn_disarm_writes_witness :
  exists st',
    rk30_wd_watchdog_fn freebsd_WD_INTERVAL shl_zero sample_sc 0x100 0
      wd_boot = Some (0, st') /\
    bus_writes (added wd_boot st') = [(WDOG_CTRL, 0x0a)] /\
    wd_enabled (ctrl_after wd_arm_pattern (added wd_boot st')) = false.
Proof.
  apply (fn_disarm_writes freebsd_WD_INTERVAL shl_zero sample_sc 0x100 0
           wd_boot wd_arm_pattern).
  vm_compute. reflexivity.
Defined.

(** Against C5 as stated: with [cmd = 0] and [*error = 45] on entry the
    handler takes the disable path and hands back 45, not the 0 that
    stands for success. *)
Lemma fn_disarm_returns_nonzero :
  wd_mask freebsd_WD_INTERVAL 0 = 0 /\
  option_map fst
    (rk30_wd_watchdog_fn freebsd_WD_INTERVAL shl_zero sample_sc 0 45 wd_boot)
  = Some 45 /\
  45 <> 0.
Proof.
  split; [reflexivity|]. split; [vm_compute; reflexivity|discriminate].
Qed.

(** ** Attach, reset, and the single binding *)

Lemma attach_bound_run (ENXIO : Z) (d : device_t) (alloc : option resource)
    (st : wd_state) (sc : rk30_wd_softc) :
  rk30_wd_sc st = Some sc ->
  rk30_wd_attach ENXIO d alloc st = Some (ENXIO, st).
Proof.
  intros Hb. unfold rk30_wd_attach, bind, get_rk30_wd_sc, ret.
  rewrite Hb. reflexivity.
Qed.

Lemma attach_fresh_run (ENXIO : Z) (d : device_t) (r : resource)
    (st : wd_state) :
  rk30_wd_sc st = None ->
  rk30_wd_attach ENXIO d (Some r) st =
    Some (0, {| rk30_wd_sc := Some {| dev := d; res := r |};
                wd_trace := wd_trace st ++
                  [MtxInit {| dev := d; res := r |};
                   EventhandlerRegister {| dev := d; res := r |}] |}).
Proof.
  intros Hn. unfold rk30_wd_attach, bind, get_rk30_wd_sc, ret, set_rk30_wd_sc,
    emit.
  rewrite Hn. simpl. rewrite <- app_assoc. reflexivity.
Qed.

Lemma attach_alloc_failed_run (ENXIO : Z) (d : device_t) (st : wd_state) :
  rk30_wd_sc st = None ->
  rk30_wd_attach ENXIO d None st =
    Some (ENXIO,
          push st [DevicePrintf d ("could not allocate memory resource" ++ nl)]).
Proof.
  intros Hn. unfold rk30_wd_attach, bind, get_rk30_wd_sc, ret.
  rewrite Hn. reflexivity.
Qed.

(** A successful attach found the global NULL and leaves it pointing at
    the new softc. *)
Lemma attach_success_binds (ENXIO : Z) (d : device_t) (alloc : option resource)
    (st st1 : wd_state) :
  ENXIO <> 0 ->
  rk30_wd_attach ENXIO d alloc st = Some (0, st1) ->
  exists r, alloc = Some r /\ rk30_wd_sc st = None /\
            rk30_wd_sc st1 = Some {| dev := d; res := r |}.
Proof.
  intros Hnz H.
  destruct (rk30_wd_sc st) as [sc|] eqn:Hg.
  - rewrite (attach_bound_run ENXIO d alloc st _ Hg) in H.
    injection H as H _. contradiction.
  - destruct alloc as [r|].
    + rewrite (attach_fresh_run ENXIO d r st Hg) in H.
      injection H as <-. exists r. repeat split.
    + rewrite (attach_alloc_failed_run ENXIO d st Hg) in H.
      injection H as H _. contradiction.
Qed.

Lemma reset_unbound_run (fuel : nat) (st : wd_state) :
  rk30_wd_sc st = None ->
  rk30_wd_watchdog_reset fuel st =
    Some (Returned,
          push st [Printf ("Reset: watchdog device has not been initialized"
                           ++ nl)]).
Proof.
  intros Hn. unfold rk30_wd_watchdog_reset, bind, get_rk30_wd_sc, ret.
  rewrite Hn. reflexivity.
Qed.

Lemma reset_bound_run (fuel : nat) (st : wd_state) (sc : rk30_wd_softc) :
  rk30_wd_sc st = Some sc ->
  rk30_wd_watchdog_reset fuel st =
    Some (Spinning,
          push st [BusWrite4 (res sc) WDOG_TORR 0;
                   BusWrite4 (res sc) WDOG_CTRL wd_arm_pattern]).
Proof.
  intros Hb.
  unfold rk30_wd_watchdog_reset, bind, get_rk30_wd_sc, ret, lift,
    RK30_WDT_WRITE.
  rewrite Hb, busy_wait_diverges. simpl nth_error. run_emits. reflexivity.
Qed.

Section Calls.

Variables WD_INTERVAL ENXIO : Z.
Variable shl_oob : Z -> Z.

Local Abbreviation step' := (step WD_INTERVAL ENXIO shl_oob).
Local Abbreviation run' := (run WD_INTERVAL ENXIO shl_oob).

(** No entry point faults. *)
Lemma step_total (c : call) (st : wd_state) : exists st', step' c st = Some st'.
Proof.
  destruct c as [d alloc|sc cmd error|fuel]; simpl.
  - destruct (rk30_wd_sc st) as [sc|] eqn:Hg.
    + rewrite (attach_bound_run ENXIO d alloc st _ Hg). eexists. reflexivity.
    + destruct alloc as [r|].
      * rewrite (attach_fresh_run ENXIO d r st Hg). eexists. reflexivity.
      * rewrite (attach_alloc_failed_run ENXIO d st Hg). eexists. reflexivity.
  - destruct (fn_total WD_INTERVAL shl_oob sc cmd error st) as (err & evs & H).
    rewrite H. eexists. reflexivity.
  - destruct (rk30_wd_sc st) as [sc|] eqn:Hg.
    + rewrite (reset_bound_run fuel st _ Hg). eexists. reflexivity.
    + rewrite (reset_unbound_run fuel st Hg). eexists. reflexivity.
Qed.

(** No entry point clears or replaces a binding. *)
Lemma step_keeps_binding (c : call) (st st' : wd_state) (sc : rk30_wd_softc) :
  rk30_wd_sc st = Some sc -> step' c st = Some st' ->
  rk30_wd_sc st' = Some sc.
Proof.
  intros Hb H. destruct c as [d alloc|sc' cmd error|fuel]; simpl in H.
  - rewrite (attach_bound_run ENXIO d alloc st _ Hb) in H.
    injection H as <-. assumption.
  - destruct (fn_total WD_INTERVAL shl_oob sc' cmd error st)
      as (err & evs & E).
    rewrite E in H. injection H as <-. assumption.
  - rewrite (reset_bound_run fuel st _ Hb) in H. injection H as <-. assumption.
Qed.

Lemma run_keeps_binding (cs : list call) :
  forall st st' sc, rk30_wd_sc st = Some sc -> run' cs st = Some st' ->
                    rk30_wd_sc st' = Some sc.
Proof.
  induction cs as [|c cs IH]; intros st st' sc Hb H; simpl in H.
  - injection H as <-. assumption.
  - destruct (step' c st) as [st1|] eqn:Hs; [|discriminate].
    apply (IH st1 st' sc); [|assumption].
    apply (step_keeps_binding c st _ _ Hb Hs).
Qed.

Lemma run_total (cs : list call) : forall st, exists st', run' cs st = Some st'.
Proof.
  induction cs as [|c cs IH]; intros st; simpl.
  - eexists. reflexivity.
  - destruct (step_total c st) as [st1 Hs]. rewrite Hs. apply IH.
Qed.

End Calls.

(** C7: once an attach has succeeded, then after any further calls into
    the driver every attach returns ENXIO and hands back the state it was
    given, with no event added (so no register access) and the global
    still pointing at the softc of the first attach. *)
Theorem attach_only_once (WD_INTERVAL ENXIO : Z) (shl_oob : Z -> Z)
    (d : device_t) (alloc : option resource) (st st1 : wd_state)
    (cs : list call) (st2 : wd_state)
    (d' : device_t) (alloc' : option resource) :
  ENXIO <> 0 ->
  rk30_wd_attach ENXIO d alloc st = Some (0, st1) ->
  run WD_INTERVAL ENXIO shl_oob cs st1 = Some st2 ->
  rk30_wd_attach ENXIO d' alloc' st2 = Some (ENXIO, st2) /\
  added st2 st2 = [] /\
  rk30_wd_sc st2 = rk30_wd_sc st1 /\
  exists r, rk30_wd_sc st1 = Some {| dev := d; res := r |}.
Proof.
  intros Hnz Ha Hrun.
  destruct (attach_success_binds ENXIO d alloc st _ Hnz Ha) as (r & _ & _ & Hb).
  pose proof (run_keeps_binding WD_INTERVAL ENXIO shl_oob cs st1 _ _ Hb Hrun) as Hb2.
  split; [apply (attach_bound_run ENXIO d' alloc' st2 _ Hb2)|].
  split; [unfold added; apply skipn_all|].
  split; [congruence|]. exists r. assumption.
Qed.

Lemma attach_only_once_witness :
  rk30_wd_attach freebsd_ENXIO 3%nat (Some 9%nat) sample_bound =
    Some (freebsd_ENXIO, sample_bound) /\
  added sample_bound sample_bound = [] /\
  rk30_wd_sc sample_bound = rk30_wd_sc sample_bound /\
  exists r, rk30_wd_sc sample_bound = Some {| dev := 0%nat; res := r |}.
Proof.
  apply (attach_only_once freebsd_WD_INTERVAL freebsd_ENXIO shl_zero
           0%nat (Some 0%nat) wd_boot sample_bound
           [CallAttach 2%nat (Some 8%nat)] sample_bound 3%nat (Some 9%nat)).
  - vm_compute. discriminate.
  - reflexivity.
  - reflexivity.
Defined.

(** C8: with no binding in place ([rk30_wd_sc] is NULL), reset prints
    the initialization error, makes no register write, and returns to
    its caller, for any amount of fuel: the busy-wait is never entered. *)
Theorem reset_before_attach (fuel : nat) (st : wd_state) :
  rk30_wd_sc st = None ->
  exists st',
    rk30_wd_watchdog_reset fuel st = Some (Returned, st') /\
    added st st' =
      [Printf ("Reset: watchdog device has not been initialized" ++ nl)] /\
    bus_writes (added st st') = [] /\
    rk30_wd_sc st' = None.
Proof.
  intros Hn. eexists. split; [apply reset_unbound_run; assumption|].
  rewrite added_push. split; [reflexivity|]. split; [reflexivity|].
  simpl. assumption.
Qed.

Lemma reset_before_attach_witness :
  exists st',
    rk30_wd_watchdog_reset 0 wd_boot = Some (Returned, st') /\
    added wd_boot st' =
      [Printf ("Reset: watchdog device has not been initialized" ++ nl)] /\
    bus_writes (added wd_boot st') = [] /\
    rk30_wd_sc st' = None.
Proof.
  apply (reset_before_attach 0 wd_boot). reflexivity.
Defined.

(** C9: once an attach has succeeded, then after any further calls into
    the driver, reset makes exactly two register writes: the encoded
    value of the first table entry, 0, to TORR, then the pattern enable |
    response-mode | reset-pulse to CTRL; it does not write CRR, performs
    no mutex operation, and then spins for any amount of fuel. *)
Theorem reset_after_attach (WD_INTERVAL ENXIO : Z) (shl_oob : Z -> Z)
    (d : device_t) (alloc : option resource) (st0 st1 : wd_state)
    (cs : list call) (st : wd_state) (fuel : nat) :
  ENXIO <> 0 ->
  rk30_wd_attach ENXIO d alloc st0 = Some (0, st1) ->
  run WD_INTERVAL ENXIO shl_oob cs st1 = Some st ->
  exists r st',
    alloc = Some r /\
    rk30_wd_watchdog_reset fuel st = Some (Spinning, st') /\
    added st st' =
      [BusWrite4 r WDOG_TORR 0;
       BusWrite4 r WDOG_CTRL
         (Z.lor (Z.lor WDOG_CTRL_EN WDOG_CTRL_RSP_MODE) WDOG_CTRL_RST_PULSE)] /\
    option_map value (nth_error wd_intervals 0) = Some 0 /\
    ~ In WDOG_CRR (map fst (bus_writes (added st st'))) /\
    mtx_ops (added st st') = [].
Proof.
  intros Hnz Ha Hrun.
  destruct (attach_success_binds ENXIO d alloc st0 _ Hnz Ha) as (r & Hr & _ & Hb).
  pose proof (run_keeps_binding WD_INTERVAL ENXIO shl_oob cs st1 _ _ Hb Hrun) as Hb2.
  exists r. eexists. split; [assumption|].
  split; [apply (reset_bound_run fuel st _ Hb2)|].
  rewrite added_push. split; [reflexivity|]. split; [reflexivity|].
  split; [|reflexivity].
  simpl. unfold WDOG_CRR, WDOG_TORR, WDOG_CTRL. intros [H|[H|[]]]; discriminate.
Qed.

Lemma reset_after_attach_witness :
  exists r st',
    Some 0%nat = Some r /\
    rk30_wd_watchdog_reset 5 sample_bound = Some (Spinning, st') /\
    added sample_bound st' =
      [BusWrite4 r WDOG_TORR 0;
       BusWrite4 r WDOG_CTRL
         (Z.lor (Z.lor WDOG_CTRL_EN WDOG_CTRL_RSP_MODE) WDOG_CTRL_RST_PULSE)] /\
    option_map value (nth_error wd_intervals 0) = Some 0 /\
    ~ In WDOG_CRR (map fst (bus_writes (added sample_bound st'))) /\
    mtx_ops (added sample_bound st') = [].
Proof.
  apply (reset_after_attach freebsd_WD_INTERVAL freebsd_ENXIO shl_zero
           0%nat (Some 0%nat) wd_boot sample_bound [] sample_bound 5%nat).
  - vm_compute. discriminate.
  - reflexivity.
  - reflexivity.
Defined.

(** * Further properties of the driver *)

(** ** More on the interval resolution *)

(** A found entry is one of the 16 real ones. *)
Lemma wd_resolve_found_real (ms : Z) (i : nat) (e : rk30_wd_interval) :
  wd_resolve ms = Some (Found i e) -> (i < 16)%nat /\ milliseconds e <> 0.
Proof.
  intros H.
  assert (Hnz : milliseconds e <> 0).
  { unfold wd_resolve in H.
    destruct (wd_scan wd_intervals (List.length wd_intervals) ms 0)
      as [k|]; [|discriminate].
    destruct (nth_error wd_intervals k) as [ek|]; [|discriminate].
    destruct (negb (milliseconds ek =? 0)) eqn:Hnz; [|discriminate].
    injection H as _ <-. apply negb_true_iff, Z.eqb_neq in Hnz. assumption. }
  split; [|assumption].
  destruct (wd_resolve_found _ _ _ H) as (Hi & _).
  pose proof (wd_intervals_in_bounds _ _ Hi) as Hb.
  destruct (Nat.eq_dec i 16) as [->|Hne]; [|lia].
  rewrite wd_intervals_sentinel_last in Hi. injection Hi as <-.
  simpl in Hnz. contradiction.
Qed.

(** Each real entry doubles the threshold of the one before it. *)
Lemma wd_intervals_double (j : nat) (lo hi : rk30_wd_interval) :
  (S j < 16)%nat ->
  nth_error wd_intervals j = Some lo ->
  nth_error wd_intervals (S j) = Some hi ->
  milliseconds hi = 2 * milliseconds lo.
Proof.
  intros Hj Hlo Hhi. table_index j; try lia;
    injection Hlo as <-; injection Hhi as <-; reflexivity.
Qed.

(** X9: a request above the smallest threshold gets a bucket that covers
    it and is less than twice as long. *)
Theorem wd_resolve_tight (ms : Z) (i : nat) (e : rk30_wd_interval) :
  2730 < ms ->
  wd_resolve ms = Some (Found i e) ->
  ms <= milliseconds e < 2 * ms.
Proof.
  intros Hms H.
  destruct (wd_resolve_found_real _ _ _ H) as (Hi16 & _).
  destruct (wd_resolve_found _ _ _ H) as (Hi & Hcov & Hbelow).
  split; [assumption|].
  destruct i as [|j].
  - injection Hi as <-. simpl in Hcov. lia.
  - destruct (nth_error wd_intervals j) as [lo|] eqn:Hlo.
    + pose proof (Hbelow j lo (Nat.lt_succ_diag_r j) Hlo) as Hlt.
      rewrite (wd_intervals_double j lo e Hi16 Hlo Hi). lia.
    + apply nth_error_None in Hlo. simpl in Hlo. lia.
Qed.

Lemma wd_resolve_tight_witness :
  5000 <= milliseconds {| milliseconds := 5460; value := 1 |} < 2 * 5000.
Proof.
  apply (wd_resolve_tight 5000 1%nat {| milliseconds := 5460; value := 1 |}).
  - lia.
  - reflexivity.
Defined.

(** X10: the resolution is monotone: a longer request never gets an
    earlier entry, a smaller encoded value or a shorter threshold. *)
Theorem wd_resolve_monotone (ms1 ms2 : Z) (i1 i2 : nat)
    (e1 e2 : rk30_wd_interval) :
  ms1 <= ms2 ->
  wd_resolve ms1 = Some (Found i1 e1) ->
  wd_resolve ms2 = Some (Found i2 e2) ->
  (i1 <= i2)%nat /\ value e1 <= value e2 /\
  milliseconds e1 <= milliseconds e2.
Proof.
  intros Hle H1 H2.
  destruct (wd_resolve_found_real _ _ _ H1) as (Hb1 & _).
  destruct (wd_resolve_found_real _ _ _ H2) as (Hb2 & _).
  destruct (wd_resolve_found _ _ _ H1) as (Hn1 & Hc1 & Hbelow1).
  destruct (wd_resolve_found _ _ _ H2) as (Hn2 & Hc2 & _).
  assert (Hi : (i1 <= i2)%nat).
  { destruct (Nat.le_gt_cases i1 i2) as [|Hgt]; [assumption|].
    pose proof (Hbelow1 i2 e2 Hgt Hn2). lia. }
  split; [assumption|].
  destruct (wd_intervals_entry _ _ Hn1) as (_ & _ & Hv1).
  destruct (wd_intervals_entry _ _ Hn2) as (_ & _ & Hv2).
  destruct (Hv1 Hb1) as [-> _]. destruct (Hv2 Hb2) as [-> _].
  split; [lia|].
  apply (wd_intervals_sorted i2 i1 e1 e2); assumption.
Qed.

Lemma wd_resolve_monotone_witness :
  wd_resolve 3000 = Some (Found 1 {| milliseconds := 5460; value := 1 |}) /\
  wd_resolve 20000 = Some (Found 3 {| milliseconds := 21840; value := 3 |}) /\
  (1 <= 3)%nat /\
  value {| milliseconds := 5460; value := 1 |} <=
    value {| milliseconds := 21840; value := 3 |} /\
  milliseconds {| milliseconds := 5460; value := 1 |} <=
    milliseconds {| milliseconds := 21840; value := 3 |}.
Proof.
  split; [reflexivity|]. split; [reflexivity|].
  apply (wd_resolve_monotone 3000 20000 1%nat 3%nat
           {| milliseconds := 5460; value := 1 |}
           {| milliseconds := 21840; value := 3 |}).
  - lia.
  - reflexivity.
  - reflexivity.
Defined.

(** ** More on the event handler *)

Lemma u32_land_ones (z : Z) : u32 z = Z.land z (Z.ones 32).
Proof. unfold u32. rewrite Z.land_ones by lia. reflexivity. Qed.

(** The second masking of line 152 is redundant. *)
Lemma wd_mask_idempotent (WD_INTERVAL cmd : Z) :
  wd_mask WD_INTERVAL (wd_mask WD_INTERVAL cmd) = wd_mask WD_INTERVAL cmd.
Proof.
  unfold wd_mask. rewrite !u32_land_ones.
  apply Z.bits_inj'. intros n Hn. rewrite !Z.land_spec.
  destruct (Z.testbit cmd n), (Z.testbit (Z.ones 32) n),
    (Z.testbit WD_INTERVAL n); reflexivity.
Qed.

(** Below 64 the shift is defined, and the derived [ms] is the timeout
    of [2 ^ n] nanoseconds in whole milliseconds. *)
Lemma wd_ms_exponent (WD_INTERVAL : Z) (shl_oob : Z -> Z) (cmd n : Z) :
  wd_mask WD_INTERVAL cmd = n -> 0 <= n < 64 ->
  wd_ms WD_INTERVAL shl_oob cmd = 2 ^ n / 1000000.
Proof.
  intros Hn Hr. unfold wd_ms. rewrite wd_mask_idempotent, Hn.
  unfold shl64_1. destruct (Z.ltb_spec n 64) as [_|]; [|lia].
  rewrite Z.shiftl_1_l. unfold u64.
  rewrite Z.mod_small; [reflexivity|].
  split; [apply Z.pow_nonneg; lia|apply Z.pow_lt_mono_r; lia].
Qed.

(** The handler takes exactly one of its three paths, and [wd_armable]
    tells which. *)
Lemma fn_cases (WD_INTERVAL : Z) (shl_oob : Z -> Z) (sc : rk30_wd_softc)
    (cmd error : Z) (st : wd_state) :
  (wd_mask WD_INTERVAL cmd = 0 /\
   wd_armable WD_INTERVAL shl_oob cmd = false /\
   rk30_wd_watchdog_fn WD_INTERVAL shl_oob sc cmd error st =
     Some (error, push st [MtxLock sc; BusWrite4 (res sc) WDOG_CTRL 0xa;
                           MtxUnlock sc])) \/
  (exists i e,
     wd_armable WD_INTERVAL shl_oob cmd = true /\
     wd_resolve (wd_ms WD_INTERVAL shl_oob cmd) = Some (Found i e) /\
     rk30_wd_watchdog_fn WD_INTERVAL shl_oob sc cmd error st =
       Some (0, push st [MtxLock sc;
                         BusWrite4 (res sc) WDOG_TORR (value e);
                         BusWrite4 (res sc) WDOG_CTRL wd_arm_pattern;
                         BusWrite4 (res sc) WDOG_CRR 0x76;
                         MtxUnlock sc])) \/
  (wd_mask WD_INTERVAL cmd <> 0 /\
   wd_max_ms < wd_ms WD_INTERVAL shl_oob cmd /\
   wd_armable WD_INTERVAL shl_oob cmd = false /\
   rk30_wd_watchdog_fn WD_INTERVAL shl_oob sc cmd error st =
     Some (error,
           push st [MtxLock sc;
                    DevicePrintf (dev sc)
                      ("Can't arm, timeout is more than 16 sec" ++ nl);
                    MtxUnlock sc;
                    BusWrite4 (res sc) WDOG_CTRL 0xa])).
Proof.
  unfold wd_armable.
  destruct (Z.eqb_spec (wd_mask WD_INTERVAL cmd) 0) as [Hm|Hm].
  - left. split; [assumption|]. split; [reflexivity|].
    apply fn_disarm_run. assumption.
  - destruct (Z.leb_spec (wd_ms WD_INTERVAL shl_oob cmd) wd_max_ms)
      as [Hle|Hlt].
    + right. left.
      destruct (wd_resolve_upto_max _ Hle) as (i & e & Hi & _).
      exists i, e. split; [reflexivity|]. split; [assumption|].
      apply (fn_arm_run _ _ _ _ _ _ i e Hm Hi).
    + right. right. split; [assumption|]. split; [assumption|].
      split; [reflexivity|].
      apply (fn_cannot_arm_run _ _ _ _ _ _ 16 Hm).
      apply wd_resolve_above_max. assumption.
Qed.

(** X1: bits of [cmd] outside [WD_INTERVAL] do not reach the handler:
    or-ing in any flags that the mask clears changes neither the result
    nor the events. *)
Theorem fn_ignores_flags (WD_INTERVAL : Z) (shl_oob : Z -> Z)
    (sc : rk30_wd_softc) (cmd flags error : Z) (st : wd_state) :
  Z.land flags WD_INTERVAL = 0 ->
  rk30_wd_watchdog_fn WD_INTERVAL shl_oob sc (Z.lor cmd flags) error st =
  rk30_wd_watchdog_fn WD_INTERVAL shl_oob sc cmd error st.
Proof.
  intros Hf.
  assert (Hm : wd_mask WD_INTERVAL (Z.lor cmd flags) = wd_mask WD_INTERVAL cmd).
  { unfold wd_mask. rewrite !u32_land_ones.
    apply Z.bits_inj'. intros n Hn.
    rewrite !Z.land_spec, Z.lor_spec.
    assert (Hb : Z.testbit flags n && Z.testbit WD_INTERVAL n = false)
      by (rewrite <- Z.land_spec, Hf; apply Z.bits_0).
    destruct (Z.testbit cmd n), (Z.testbit flags n),
      (Z.testbit (Z.ones 32) n), (Z.testbit WD_INTERVAL n);
      simpl in *; congruence. }
  unfold rk30_wd_watchdog_fn, wd_ms. rewrite Hm. reflexivity.
Qed.

Lemma fn_ignores_flags_witness :
  rk30_wd_watchdog_fn freebsd_WD_INTERVAL shl_zero sample_sc
    (Z.lor 33 0x8000) 45 wd_boot =
  rk30_wd_watchdog_fn freebsd_WD_INTERVAL shl_zero sample_sc 33 45 wd_boot.
Proof.
  apply (fn_ignores_flags freebsd_WD_INTERVAL shl_zero sample_sc 33 0x8000 45
           wd_boot).
  reflexivity.
Defined.

(** X2: on every path, early return included, one call of the handler
    takes the mutex of its softc once and releases it once, in that
    order, and performs no other mutex operation. *)
Theorem fn_lock_balanced (WD_INTERVAL : Z) (shl_oob : Z -> Z)
    (sc : rk30_wd_softc) (cmd error : Z) (st : wd_state) :
  exists err st',
    rk30_wd_watchdog_fn WD_INTERVAL shl_oob sc cmd error st = Some (err, st') /\
    mtx_ops (added st st') = [MtxLock sc; MtxUnlock sc] /\
    mtx_inits (added st st') = [].
Proof.
  destruct (fn_cases WD_INTERVAL shl_oob sc cmd error st)
    as [(_ & _ & H)|[(i & e & _ & _ & H)|(_ & _ & _ & H)]];
    eexists _, _; (split; [exact H|]); rewrite added_push; split; reflexivity.
Qed.

(** X3: when the request is a disable or can be armed, every register
    write of the call is made between taking and releasing the mutex. *)
Theorem fn_writes_under_lock (WD_INTERVAL : Z) (shl_oob : Z -> Z)
    (sc : rk30_wd_softc) (cmd error : Z) (st : wd_state) :
  wd_mask WD_INTERVAL cmd = 0 \/ wd_ms WD_INTERVAL shl_oob cmd <= wd_max_ms ->
  exists err st',
    rk30_wd_watchdog_fn WD_INTERVAL shl_oob sc cmd error st = Some (err, st') /\
    writes_locked false (added st st') = true.
Proof.
  intros H.
  destruct (fn_writes_locked WD_INTERVAL shl_oob sc cmd error st H)
    as (err & evs & Hrun & Hl).
  exists err, (push st evs). split; [assumption|].
  rewrite added_push. assumption.
Qed.

Lemma fn_writes_under_lock_witness :
  exists err st',
    rk30_wd_watchdog_fn freebsd_WD_INTERVAL shl_zero sample_sc 40 45 wd_boot =
      Some (err, st') /\
    writes_locked false (added wd_boot st') = true.
Proof.
  apply (fn_writes_under_lock freebsd_WD_INTERVAL shl_zero sample_sc 40 45
           wd_boot).
  right. vm_compute. discriminate.
Defined.

(** X4: the handler works on the softc it is handed, not on the global:
    every event of a call concerns that softc (its mutex, its register
    window, its console prefix), and the global [rk30_wd_sc] is left as
    it was. *)
Theorem fn_uses_private_softc (WD_INTERVAL : Z) (shl_oob : Z -> Z)
    (sc : rk30_wd_softc) (cmd error : Z) (st : wd_state) :
  exists err st',
    rk30_wd_watchdog_fn WD_INTERVAL shl_oob sc cmd error st = Some (err, st') /\
    Forall (on_device sc) (added st st') /\
    rk30_wd_sc st' = rk30_wd_sc st /\
    registered (added st st') = [].
Proof.
  destruct (fn_cases WD_INTERVAL shl_oob sc cmd error st)
    as [(_ & _ & H)|[(i & e & _ & _ & H)|(_ & _ & _ & H)]];
    eexists _, _; (split; [exact H|]); rewrite added_push;
    (split; [repeat constructor|split; reflexivity]).
Qed.

(** X16: the handler writes only TORR, CTRL and CRR: a selector below 16
    to TORR, the arm or the disable pattern to CTRL, 0x76 to CRR; it
    never writes CCVR, STAT or EOI. *)
Theorem fn_register_writes_ok (WD_INTERVAL : Z) (shl_oob : Z -> Z)
    (sc : rk30_wd_softc) (cmd error : Z) (st : wd_state) :
  exists err st',
    rk30_wd_watchdog_fn WD_INTERVAL shl_oob sc cmd error st = Some (err, st') /\
    Forall wd_write_ok (bus_writes (added st st')) /\
    Forall (fun w => fst w <> WDOG_CCVR /\ fst w <> WDOG_STAT /\
                     fst w <> WDOG_EOI)
           (bus_writes (added st st')).
Proof.
  assert (Hoff : forall ws : list (Z * Z),
            Forall wd_write_ok ws ->
            Forall (fun w => fst w <> WDOG_CCVR /\ fst w <> WDOG_STAT /\
                             fst w <> WDOG_EOI) ws).
  { intros ws Hws. eapply Forall_impl; [|exact Hws].
    intros w [[-> _]|[[-> _]|[-> _]]]; repeat split; discriminate. }
  assert (Hctrl : forall v, v = wd_arm_pattern \/ v = 0x0a ->
                            wd_write_ok (WDOG_CTRL, v)).
  { intros v Hv. right. left. split; [reflexivity|exact Hv]. }
  assert (Hcrr : wd_write_ok (WDOG_CRR, 0x76)).
  { right. right. split; reflexivity. }
  destruct (fn_cases WD_INTERVAL shl_oob sc cmd error st)
    as [(_ & _ & H)|[(i & e & _ & Hr & H)|(_ & _ & _ & H)]];
    eexists _, _; (split; [exact H|]); rewrite added_push; simpl;
    (match goal with
     | |- ?A /\ _ =>
         assert (HA : A); [|split; [exact HA|apply Hoff; exact HA]]
     end).
  - apply Forall_cons; [apply Hctrl; right; reflexivity|apply Forall_nil].
  - destruct (wd_resolve_found _ _ _ Hr) as (Hi & _).
    destruct (wd_intervals_entry _ _ Hi) as (_ & Hv & _).
    apply Forall_cons; [left; split; [reflexivity|exact Hv]|].
    apply Forall_cons; [apply Hctrl; left; reflexivity|].
    apply Forall_cons; [exact Hcrr|apply Forall_nil].
  - apply Forall_cons; [apply Hctrl; right; reflexivity|apply Forall_nil].
Qed.

Lemma ctrl_after_app (init : Z) (a b : list event) :
  ctrl_after init (a ++ b) = ctrl_after (ctrl_after init a) b.
Proof.
  revert init. induction a as [|e a IH]; intros init; simpl; [reflexivity|].
  destruct e; try apply IH.
  destruct (off =? WDOG_CTRL); apply IH.
Qed.

(** What one call leaves in CTRL and in [*error], whatever CTRL held. *)
Lemma fn_effect (WD_INTERVAL : Z) (shl_oob : Z -> Z) (sc : rk30_wd_softc)
    (cmd error : Z) (st : wd_state) :
  exists evs,
    rk30_wd_watchdog_fn WD_INTERVAL shl_oob sc cmd error st =
      Some (if wd_armable WD_INTERVAL shl_oob cmd then 0 else error,
            push st evs) /\
    forall init,
      wd_enabled (ctrl_after init evs) = wd_armable WD_INTERVAL shl_oob cmd.
Proof.
  destruct (fn_cases WD_INTERVAL shl_oob sc cmd error st)
    as [(_ & Ha & H)|[(i & e & Ha & _ & H)|(_ & _ & Ha & H)]];
    rewrite Ha; eexists; (split; [exact H|]); intros init; reflexivity.
Qed.

(** X5: after a call of the handler the counter runs exactly when the
    request was armable (masked field non-zero, derived [ms] within the
    table), whatever CTRL held before; [*error] is set to 0 in that case
    and left as it was in every other. *)
Theorem fn_outcome (WD_INTERVAL : Z) (shl_oob : Z -> Z) (sc : rk30_wd_softc)
    (cmd error : Z) (st : wd_state) (init : Z) :
  exists err st',
    rk30_wd_watchdog_fn WD_INTERVAL shl_oob sc cmd error st = Some (err, st') /\
    wd_enabled (ctrl_after init (added st st')) =
      wd_armable WD_INTERVAL shl_oob cmd /\
    err = if wd_armable WD_INTERVAL shl_oob cmd then 0 else error.
Proof.
  destruct (fn_effect WD_INTERVAL shl_oob sc cmd error st) as (evs & H & Hc).
  eexists _, _. split; [exact H|]. rewrite added_push.
  split; [apply Hc|reflexivity].
Qed.

Section LastCall.

Variables WD_INTERVAL ENXIO : Z.
Variable shl_oob : Z -> Z.

Lemma run_app (cs1 cs2 : list call) :
  forall st,
    run WD_INTERVAL ENXIO shl_oob (cs1 ++ cs2) st =
    match run WD_INTERVAL ENXIO shl_oob cs1 st with
    | Some st1 => run WD_INTERVAL ENXIO shl_oob cs2 st1
    | None => None
    end.
Proof.
  induction cs1 as [|c cs1 IH]; intros st; simpl; [reflexivity|].
  destruct (step WD_INTERVAL ENXIO shl_oob c st) as [st1|]; [apply IH|].
  reflexivity.
Qed.

End LastCall.

(** X6: whatever calls came before (attach, reset, other requests), once
    a call of the handler has returned the counter runs exactly when
    that last request was armable: the armed state never depends on
    history. *)
Theorem fn_last_call_decides (WD_INTERVAL ENXIO : Z) (shl_oob : Z -> Z)
    (cs : list call) (sc : rk30_wd_softc) (cmd error : Z)
    (st st' : wd_state) (init : Z) :
  run WD_INTERVAL ENXIO shl_oob (cs ++ [CallWatchdogFn sc cmd error]) st =
    Some st' ->
  wd_enabled (ctrl_after init (wd_trace st')) =
    wd_armable WD_INTERVAL shl_oob cmd.
Proof.
  intros H. rewrite run_app in H.
  destruct (run WD_INTERVAL ENXIO shl_oob cs st) as [st1|]; [|discriminate].
  simpl in H.
  destruct (fn_effect WD_INTERVAL shl_oob sc cmd error st1) as (evs & E & Hc).
  rewrite E in H. simpl in H. injection H as <-.
  simpl. rewrite ctrl_after_app. apply Hc.
Qed.

Lemma fn_last_call_decides_witness :
  exists st',
    run freebsd_WD_INTERVAL freebsd_ENXIO shl_zero
      ([CallAttach 0%nat (Some 0%nat); CallWatchdogFn sample_sc 40 45] ++
       [CallWatchdogFn sample_sc 0 45]) wd_boot = Some st' /\
    wd_enabled (ctrl_after 0 (wd_trace st')) =
      wd_armable freebsd_WD_INTERVAL shl_zero 0.
Proof.
  eexists. split; [vm_compute; reflexivity|].
  eapply fn_last_call_decides
    with (ENXIO := freebsd_ENXIO) (st := wd_boot) (error := 45)
         (sc := sample_sc)
         (cs := [CallAttach 0%nat (Some 0%nat);
                 CallWatchdogFn sample_sc 40 45]).
  vm_compute. reflexivity.
Defined.

(** ** Exponents *)

Lemma exponent_buckets :
  forallb exponent_bucket_ok (map Z.of_nat (seq 1 46)) = true.
Proof. vm_compute. reflexivity. Qed.

Lemma exponent_resolve (n : Z) :
  1 <= n <= 46 ->
  exists i e, wd_resolve (2 ^ n / 1000000) = Some (Found i e) /\
              value e = Z.max 0 (n - 31).
Proof.
  intros Hn.
  assert (Hin : In n (map Z.of_nat (seq 1 46))).
  { rewrite <- (Z2Nat.id n) by lia. apply in_map, in_seq. lia. }
  pose proof (proj1 (forallb_forall _ _) exponent_buckets n Hin) as Hok.
  unfold exponent_bucket_ok in Hok.
  destruct (wd_resolve (2 ^ n / 1000000)) as [[i e|i]|]; try discriminate.
  exists i, e. split; [reflexivity|]. apply Z.eqb_eq. assumption.
Qed.

(** X7: a request whose masked field is [n], with 1 <= n <= 46 (a
    timeout of [2 ^ n] ns), is armed: the handler stores 0 in [*error]
    and writes [max 0 (n - 31)] to TORR, then the arm pattern to CTRL and
    0x76 to CRR, whatever the platform does with oversized shifts. *)
Theorem fn_exponent_bucket (WD_INTERVAL : Z) (shl_oob : Z -> Z)
    (sc : rk30_wd_softc) (cmd error : Z) (st : wd_state) (n : Z) :
  wd_mask WD_INTERVAL cmd = n ->
  1 <= n <= 46 ->
  exists st',
    rk30_wd_watchdog_fn WD_INTERVAL shl_oob sc cmd error st = Some (0, st') /\
    bus_writes (added st st') =
      [(WDOG_TORR, Z.max 0 (n - 31)); (WDOG_CTRL, wd_arm_pattern);
       (WDOG_CRR, 0x76)].
Proof.
  intros Hm Hn.
  destruct (exponent_resolve n Hn) as (i & e & Hr & Hv).
  rewrite <- (wd_ms_exponent WD_INTERVAL shl_oob cmd n Hm) in Hr by lia.
  assert (Hnz : wd_mask WD_INTERVAL cmd <> 0) by lia.
  eexists. split; [apply (fn_arm_run _ _ _ _ _ _ i e Hnz Hr)|].
  rewrite added_push. simpl. rewrite Hv. reflexivity.
Qed.

Lemma fn_exponent_bucket_witness :
  exists st',
    rk30_wd_watchdog_fn freebsd_WD_INTERVAL shl_zero sample_sc 40 45 wd_boot =
      Some (0, st') /\
    bus_writes (added wd_boot st') =
      [(WDOG_TORR, Z.max 0 (40 - 31)); (WDOG_CTRL, wd_arm_pattern);
       (WDOG_CRR, 0x76)].
Proof.
  apply (fn_exponent_bucket freebsd_WD_INTERVAL shl_zero sample_sc 40 45
           wd_boot 40).
  - reflexivity.
  - lia.
Defined.

(** X8: among the exponents for which the shift is defined (masked field
    [n] below 64), exactly 1 to 46 can be armed: 0 is the disable
    request, and from 47 on the timeout is beyond the table. *)
Theorem wd_armable_exponents (WD_INTERVAL : Z) (shl_oob : Z -> Z) (cmd n : Z) :
  wd_mask WD_INTERVAL cmd = n ->
  0 <= n < 64 ->
  wd_armable WD_INTERVAL shl_oob cmd = (1 <=? n) && (n <=? 46).
Proof.
  intros Hm Hn. unfold wd_armable.
  rewrite (wd_ms_exponent WD_INTERVAL shl_oob cmd n Hm Hn), Hm.
  destruct (Z.eqb_spec n 0) as [->|Hnz]; [reflexivity|].
  destruct (Z.leb_spec 1 n) as [_|]; [|lia]. simpl.
  destruct (Z.leb_spec n 46) as [Hle|Hgt].
  - apply Z.leb_le.
    assert (2 ^ n / 1000000 <= 2 ^ 46 / 1000000)
      by (apply Z.div_le_mono; [lia|apply Z.pow_le_mono_r; lia]).
    assert (2 ^ 46 / 1000000 <= wd_max_ms) by (vm_compute; discriminate).
    lia.
  - apply Z.leb_gt.
    assert (2 ^ 47 / 1000000 <= 2 ^ n / 1000000)
      by (apply Z.div_le_mono; [lia|apply Z.pow_le_mono_r; lia]).
    assert (wd_max_ms < 2 ^ 47 / 1000000) by (vm_compute; reflexivity).
    lia.
Qed.

Lemma wd_armable_exponents_witness :
  wd_armable freebsd_WD_INTERVAL shl_zero 47 = (1 <=? 47) && (47 <=? 46).
Proof.
  apply (wd_armable_exponents freebsd_WD_INTERVAL shl_zero 47 47).
  - reflexivity.
  - lia.
Defined.

(** ** More on attach, reset and sequences of calls *)

Lemma added_app (st st' : wd_state) (evs : list event) :
  wd_trace st' = wd_trace st ++ evs -> added st st' = evs.
Proof.
  intros H. unfold added. rewrite H.
  rewrite skipn_app, Nat.sub_diag, skipn_all. reflexivity.
Qed.

Lemma registered_app (a b : list event) :
  registered (a ++ b) = registered a ++ registered b.
Proof.
  induction a as [|e a IH]; simpl; [reflexivity|].
  destruct e; simpl; rewrite IH; reflexivity.
Qed.

Lemma mtx_inits_app (a b : list event) :
  mtx_inits (a ++ b) = mtx_inits a ++ mtx_inits b.
Proof.
  induction a as [|e a IH]; simpl; [reflexivity|].
  destruct e; simpl; rewrite IH; reflexivity.
Qed.

(** X12: attach returns 0 or ENXIO, and 0 exactly when no softc was
    bound and the memory resource was allocated; on no path does it write
    a register or take the mutex. *)
Theorem attach_result (ENXIO : Z) (d : device_t) (alloc : option resource)
    (st : wd_state) :
  ENXIO <> 0 ->
  exists ret st',
    rk30_wd_attach ENXIO d alloc st = Some (ret, st') /\
    (ret = 0 \/ ret = ENXIO) /\
    (ret = 0 <-> rk30_wd_sc st = None /\ alloc <> None) /\
    bus_writes (added st st') = [] /\
    mtx_ops (added st st') = [].
Proof.
  intros Hnz.
  destruct (rk30_wd_sc st) as [sc|] eqn:Hg.
  - exists ENXIO, st. split; [apply (attach_bound_run ENXIO d alloc st sc Hg)|].
    split; [right; reflexivity|].
    split; [split; [contradiction|intros [H _]; discriminate]|].
    unfold added. rewrite skipn_all. split; reflexivity.
  - destruct alloc as [r|].
    + eexists _, _. split; [apply (attach_fresh_run ENXIO d r st Hg)|].
      split; [left; reflexivity|].
      split; [split; [intros _; split; [reflexivity|discriminate]|reflexivity]|].
      erewrite added_app by reflexivity. split; reflexivity.
    + eexists _, _. split; [apply (attach_alloc_failed_run ENXIO d st Hg)|].
      split; [right; reflexivity|].
      split; [split; [contradiction|intros [_ H]; contradiction]|].
      rewrite added_push. split; reflexivity.
Qed.

Lemma attach_result_witness :
  exists ret st',
    rk30_wd_attach freebsd_ENXIO 0%nat None wd_boot = Some (ret, st') /\
    (ret = 0 \/ ret = freebsd_ENXIO) /\
    (ret = 0 <-> rk30_wd_sc wd_boot = None /\ @None resource <> None) /\
    bus_writes (added wd_boot st') = [] /\
    mtx_ops (added wd_boot st') = [].
Proof.
  apply (attach_result freebsd_ENXIO 0%nat None wd_boot).
  vm_compute. discriminate.
Defined.

(** X11: an attach that fails to allocate its memory resource reports
    ENXIO, logs the failure, and leaves the driver unbound with no mutex
    initialised and no handler registered; a later attach that gets its
    resource then succeeds and binds its own softc. *)
Theorem attach_failure_can_be_retried (ENXIO : Z) (d d' : device_t)
    (r : resource) (st : wd_state) :
  rk30_wd_sc st = None ->
  exists st1 st2,
    rk30_wd_attach ENXIO d None st = Some (ENXIO, st1) /\
    added st st1 =
      [DevicePrintf d ("could not allocate memory resource" ++ nl)] /\
    rk30_wd_sc st1 = None /\
    rk30_wd_attach ENXIO d' (Some r) st1 = Some (0, st2) /\
    rk30_wd_sc st2 = Some {| dev := d'; res := r |} /\
    added st1 st2 =
      [MtxInit {| dev := d'; res := r |};
       EventhandlerRegister {| dev := d'; res := r |}].
Proof.
  intros Hn. eexists _, _.
  split; [apply (attach_alloc_failed_run ENXIO d st Hn)|].
  split; [apply added_push|]. split; [exact Hn|].
  split; [apply attach_fresh_run; exact Hn|].
  split; [reflexivity|]. apply added_app. reflexivity.
Qed.

Lemma attach_failure_can_be_retried_witness :
  exists st1 st2,
    rk30_wd_attach freebsd_ENXIO 1%nat None wd_boot =
      Some (freebsd_ENXIO, st1) /\
    added wd_boot st1 =
      [DevicePrintf 1%nat ("could not allocate memory resource" ++ nl)] /\
    rk30_wd_sc st1 = None /\
    rk30_wd_attach freebsd_ENXIO 2%nat (Some 7%nat) st1 = Some (0, st2) /\
    rk30_wd_sc st2 = Some {| dev := 2%nat; res := 7%nat |} /\
    added st1 st2 =
      [MtxInit {| dev := 2%nat; res := 7%nat |};
       EventhandlerRegister {| dev := 2%nat; res := 7%nat |}].
Proof.
  apply (attach_failure_can_be_retried freebsd_ENXIO 1%nat 2%nat 7%nat wd_boot).
  reflexivity.
Defined.

Section Sequences.

Variables WD_INTERVAL ENXIO : Z.
Variable shl_oob : Z -> Z.

(** One call either binds a fresh softc (an attach with a resource on an
    unbound driver), or only appends events that initialise no mutex and
    register no handler. *)
Lemma step_shape (c : call) (st st' : wd_state) :
  step WD_INTERVAL ENXIO shl_oob c st = Some st' ->
  (exists evs, st' = push st evs /\ registered evs = [] /\
               mtx_inits evs = [] /\
               (rk30_wd_sc st = None -> first_attach [c] = None)) \/
  (exists d r, c = CallAttach d (Some r) /\ rk30_wd_sc st = None /\
               st' = {| rk30_wd_sc := Some {| dev := d; res := r |};
                        wd_trace := wd_trace st ++
                          [MtxInit {| dev := d; res := r |};
                           EventhandlerRegister {| dev := d; res := r |}] |}).
Proof.
  intros H. destruct c as [d alloc|sc cmd error|fuel]; simpl in H.
  - destruct (rk30_wd_sc st) as [sc|] eqn:Hg.
    + rewrite (attach_bound_run ENXIO d alloc st sc Hg) in H.
      injection H as <-. left. exists [].
      split; [unfold push; destruct st; simpl; rewrite app_nil_r; reflexivity|].
      repeat split. discriminate.
    + destruct alloc as [r|].
      * rewrite (attach_fresh_run ENXIO d r st Hg) in H. injection H as <-.
        right. exists d, r. repeat split.
      * rewrite (attach_alloc_failed_run ENXIO d st Hg) in H.
        injection H as <-. left. eexists. repeat split.
  - left.
    destruct (fn_cases WD_INTERVAL shl_oob sc cmd error st)
      as [(_ & _ & E)|[(i & e & _ & _ & E)|(_ & _ & _ & E)]];
      rewrite E in H; injection H as <-; eexists; repeat split.
  - left. destruct (rk30_wd_sc st) as [sc|] eqn:Hg.
    + rewrite (reset_bound_run fuel st sc Hg) in H. injection H as <-.
      eexists. repeat split.
    + rewrite (reset_unbound_run fuel st Hg) in H. injection H as <-.
      eexists. repeat split.
Qed.

Lemma run_first_attach (cs : list call) :
  forall st st', rk30_wd_sc st = None ->
    run WD_INTERVAL ENXIO shl_oob cs st = Some st' ->
    rk30_wd_sc st' = first_attach cs.
Proof.
  induction cs as [|c cs IH]; intros st st' Hn H; simpl in H.
  - injection H as <-. assumption.
  - destruct (step WD_INTERVAL ENXIO shl_oob c st) as [st1|] eqn:Hs;
      [|discriminate].
    destruct (step_shape c st _ Hs)
      as [(evs & -> & _ & _ & Hf)|(d & r & -> & _ & ->)].
    + specialize (Hf Hn).
      assert (Hc : first_attach (c :: cs) = first_attach cs).
      { destruct c as [d [r|]|sc cmd error|fuel];
          [discriminate Hf|reflexivity..]. }
      rewrite Hc. apply (IH (push st evs) st'); assumption.
    + simpl. eapply run_keeps_binding; [|exact H]. reflexivity.
Qed.

Lemma run_registered (cs : list call) :
  forall st st',
    run WD_INTERVAL ENXIO shl_oob cs st = Some st' ->
    registered (wd_trace st) = match rk30_wd_sc st with
                               | Some sc => [sc]
                               | None => []
                               end ->
    mtx_inits (wd_trace st) = registered (wd_trace st) ->
    registered (wd_trace st') = match rk30_wd_sc st' with
                                | Some sc => [sc]
                                | None => []
                                end /\
    mtx_inits (wd_trace st') = registered (wd_trace st').
Proof.
  induction cs as [|c cs IH]; intros st st' H Hr Hi; simpl in H.
  - injection H as <-. split; assumption.
  - destruct (step WD_INTERVAL ENXIO shl_oob c st) as [st1|] eqn:Hs;
      [|discriminate].
    apply (IH st1 st' H);
      destruct (step_shape c st _ Hs)
        as [(evs & -> & Hre & Hie & _)|(d & r & _ & Hn & ->)]; simpl.
    + rewrite registered_app, Hre, app_nil_r. assumption.
    + rewrite Hn in Hr. rewrite registered_app, Hr. reflexivity.
    + rewrite registered_app, mtx_inits_app, Hre, Hie, !app_nil_r.
      assumption.
    + rewrite registered_app, mtx_inits_app, Hi. reflexivity.
Qed.

End Sequences.

(** X13: the first attach that is given a resource wins: after any
    sequence of calls on an unbound driver, the global points at the
    softc of that attach, and stays NULL if there was none. *)
Theorem first_attach_wins (WD_INTERVAL ENXIO : Z) (shl_oob : Z -> Z)
    (cs : list call) (st st' : wd_state) :
  rk30_wd_sc st = None ->
  run WD_INTERVAL ENXIO shl_oob cs st = Some st' ->
  rk30_wd_sc st' = first_attach cs.
Proof. apply run_first_attach. Qed.

Lemma first_attach_wins_witness :
  exists st',
    run freebsd_WD_INTERVAL freebsd_ENXIO shl_zero
      [CallReset 0; CallAttach 1%nat None; CallAttach 2%nat (Some 7%nat);
       CallAttach 3%nat (Some 8%nat)] wd_boot = Some st' /\
    rk30_wd_sc st' = Some {| dev := 2%nat; res := 7%nat |}.
Proof.
  eexists. split; [vm_compute; reflexivity|].
  eapply first_attach_wins
    with (WD_INTERVAL := freebsd_WD_INTERVAL) (ENXIO := freebsd_ENXIO)
         (shl_oob := shl_zero) (st := wd_boot)
         (cs := [CallReset 0; CallAttach 1%nat None;
                 CallAttach 2%nat (Some 7%nat);
                 CallAttach 3%nat (Some 8%nat)]).
  - reflexivity.
  - vm_compute. reflexivity.
Defined.

(** X14: after any sequence of calls from boot, the watchdog handler is
    registered exactly once, with the softc the global points at, when a
    softc is bound, and not at all otherwise; the mutex is initialised
    for the same softcs. *)
Theorem registered_once (WD_INTERVAL ENXIO : Z) (shl_oob : Z -> Z)
    (cs : list call) (st : wd_state) :
  run WD_INTERVAL ENXIO shl_oob cs wd_boot = Some st ->
  registered (wd_trace st) = match rk30_wd_sc st with
                             | Some sc => [sc]
                             | None => []
                             end /\
  mtx_inits (wd_trace st) = registered (wd_trace st).
Proof.
  intros H.
  apply (run_registered WD_INTERVAL ENXIO shl_oob cs wd_boot st H);
    reflexivity.
Qed.

Lemma registered_once_witness :
  exists st,
    run freebsd_WD_INTERVAL freebsd_ENXIO shl_zero
      [CallAttach 2%nat (Some 7%nat); CallAttach 3%nat (Some 8%nat);
       CallWatchdogFn {| dev := 2%nat; res := 7%nat |} 40 45]
      wd_boot = Some st /\
    registered (wd_trace st) = match rk30_wd_sc st with
                               | Some sc => [sc]
                               | None => []
                               end /\
    mtx_inits (wd_trace st) = registered (wd_trace st).
Proof.
  eexists. split; [vm_compute; reflexivity|].
  eapply registered_once
    with (WD_INTERVAL := freebsd_WD_INTERVAL) (ENXIO := freebsd_ENXIO)
         (shl_oob := shl_zero)
         (cs := [CallAttach 2%nat (Some 7%nat); CallAttach 3%nat (Some 8%nat);
                 CallWatchdogFn {| dev := 2%nat; res := 7%nat |} 40 45]).
  vm_compute. reflexivity.
Defined.

(** X15: on a bound driver, reset makes the register writes of a request
    for the shortest bucket (derived [ms] at most 2730), except that it
    leaves out the final restart of the counter through CRR. *)
Theorem reset_is_shortest_arm_without_restart (WD_INTERVAL : Z)
    (shl_oob : Z -> Z) (sc : rk30_wd_softc) (cmd error : Z)
    (st : wd_state) (fuel : nat) :
  rk30_wd_sc st = Some sc ->
  wd_mask WD_INTERVAL cmd <> 0 ->
  wd_ms WD_INTERVAL shl_oob cmd <= 2730 ->
  exists st1 st2,
    rk30_wd_watchdog_reset fuel st = Some (Spinning, st1) /\
    rk30_wd_watchdog_fn WD_INTERVAL shl_oob sc cmd error st = Some (0, st2) /\
    bus_writes (added st st2) =
      bus_writes (added st st1) ++ [(WDOG_CRR, 0x76)].
Proof.
  intros Hb Hm Hms.
  assert (Hr : wd_resolve (wd_ms WD_INTERVAL shl_oob cmd) =
               Some (Found 0 {| milliseconds := 2730; value := 0 |})).
  { apply wd_resolve_covering. split; [reflexivity|].
    split; [exact Hms|]. intros j e' Hj. lia. }
  eexists _, _. split; [apply (reset_bound_run fuel st sc Hb)|].
  split; [apply (fn_arm_run _ _ _ _ _ _ _ _ Hm Hr)|].
  rewrite !added_push. reflexivity.
Qed.

Lemma reset_is_shortest_arm_without_restart_witness :
  exists st1 st2,
    rk30_wd_watchdog_reset 3 sample_bound = Some (Spinning, st1) /\
    rk30_wd_watchdog_fn freebsd_WD_INTERVAL shl_zero sample_sc 20 45
      sample_bound = Some (0, st2) /\
    bus_writes (added sample_bound st2) =
      bus_writes (added sample_bound st1) ++ [(WDOG_CRR, 0x76)].
Proof.
  apply (reset_is_shortest_arm_without_restart freebsd_WD_INTERVAL shl_zero
           sample_sc 20 45 sample_bound 3).
  - reflexivity.
  - vm_compute. discriminate.
  - vm_compute. discriminate.
Defined.
